(** * The TypeScript plugin of graphql-code-generator

  A shallow embedding of
  [packages/plugins/typescript/typescript/src/index.ts]:
  the entry point [plugin], the Introspection-Type Includer
  [includeIntrospectionDefinitions] and its recursive helper
  [collectTypes], followed by the properties of the specification that
  concern them. *)

From Stdlib Require Import String Ascii List Bool Arith Lia.
Import ListNotations.

Set Warnings "-register-all".

Local Open Scope string_scope.
Local Open Scope list_scope.

(** ** JavaScript values and the array and string primitives the plugin uses *)

Module Js.

(** The values that occur as array elements in [plugin]: strings, and
    arrays of such values (line 163 puts a whole array inside an array
    literal). *)
Inductive Value : Type :=
| Str (s : string)
| Arr (elements : list Value).

(** [ToString]: a string is itself; an array is converted by
    [Array.prototype.toString], that is [join] with a comma. *)
Fixpoint toString (v : Value) : string :=
  match v with
  | Str s => s
  | Arr elements => String.concat "," (map toString elements)
  end.

(** [Array.prototype.join(separator)]: every element is converted with
    [ToString] and the results are concatenated with the separator
    between them. *)
Definition join (separator : string) (array : list Value) : string :=
  String.concat separator (map toString array).

(** [String.prototype.includes(search)]: [search] occurs somewhere in [s]. *)
Fixpoint includes (s search : string) : bool :=
  String.prefix search s
  || match s with
     | EmptyString => false
     | String _ rest => includes rest search
     end.

(** [Array.prototype.includes(x)] on an array of type references.  Types
    are objects compared by identity; a schema holds one object per type
    name, so identity is equality of names. *)
Definition arrayIncludes (array : list string) (x : string) : bool :=
  existsb (String.eqb x) array.

(** [array.forEach(x => body)] where [body] updates a captured
    accumulator: the accumulator is threaded through, and [None] (the
    model is out of fuel) aborts the loop. *)
Fixpoint forEach {A S : Type} (body : S -> A -> option S)
         (array : list A) (state : S) : option S :=
  match array with
  | [] => Some state
  | x :: rest =>
      match body state x with
      | Some state' => forEach body rest state'
      | None => None
      end
  end.

(** The line feed character of ['\n']. *)
Definition LF : string := String (ascii_of_nat 10) EmptyString.

End Js.

(** ** The part of graphql-js the plugin reads *)

Module GraphQL.

(** A type reference: a named type under [List] and [NonNull] wrappers. *)
Inductive GraphQLType : Type :=
| Named (name : string)
| GraphQLList (ofType : GraphQLType)
| GraphQLNonNull (ofType : GraphQLType).

(** [getNamedType]: strip the wrappers. *)
Fixpoint getNamedType (type : GraphQLType) : string :=
  match type with
  | Named name => name
  | GraphQLList ofType => getNamedType ofType
  | GraphQLNonNull ofType => getNamedType ofType
  end.

(** The field map of a type, in the order of [Object.keys]. *)
Definition FieldMap : Type := list (string * GraphQLType).

(** The six variants of a named type.  References to other types are by
    name: the type graph may be cyclic, and the schema's type map is the
    store in which a name is looked up. *)
Inductive GraphQLNamedType : Type :=
| GraphQLScalarType (name : string)
| GraphQLObjectType (name : string) (fields : FieldMap) (interfaces : list string)
| GraphQLInterfaceType (name : string) (fields : FieldMap)
| GraphQLUnionType (name : string) (types : list string)
| GraphQLEnumType (name : string) (values : list string)
| GraphQLInputObjectType (name : string) (fields : FieldMap).

Definition typeName (type : GraphQLNamedType) : string :=
  match type with
  | GraphQLScalarType name
  | GraphQLObjectType name _ _
  | GraphQLInterfaceType name _
  | GraphQLUnionType name _
  | GraphQLEnumType name _
  | GraphQLInputObjectType name _ => name
  end.


(** A schema: its type map, in declared order. *)
Record GraphQLSchema : Type := { typeMap : list GraphQLNamedType }.

(** [schema.getType(name)]. *)
Definition getType (schema : GraphQLSchema) (name : string) : option GraphQLNamedType :=
  find (fun type => String.eqb (typeName type) name) (typeMap schema).

(** [isObjectType(type)] for the type called [name]. *)
Definition isObjectType (schema : GraphQLSchema) (name : string) : bool :=
  match getType schema name with
  | Some (GraphQLObjectType _ _ _) => true
  | _ => false
  end.

(** [type.getFields()] for the object type called [name]. *)
Definition getFields (schema : GraphQLSchema) (name : string) : FieldMap :=
  match getType schema name with
  | Some (GraphQLObjectType _ fields _) => fields
  | _ => []
  end.

(** The names of graphql-js's [introspectionTypes]. *)
Definition introspectionTypes : list string :=
  [ "__Schema"; "__Directive"; "__DirectiveLocation"; "__Type";
    "__Field"; "__InputValue"; "__EnumValue"; "__TypeKind" ].

(** [isIntrospectionType(type)]: the type bears the name of one of the
    introspection types. *)
Definition isIntrospectionType (name : string) : bool :=
  existsb (String.eqb name) introspectionTypes.

(** [parse(printIntrospectionSchema(schema))]: the definitions of the
    introspection types of the schema, and only those. *)
Definition printIntrospectionSchema (schema : GraphQLSchema) : list GraphQLNamedType :=
  filter (fun type => isIntrospectionType (typeName type)) (typeMap schema).

(** A [Field] node of an operation document as the type-aware visitor
    sees it: [typeInfo.getType()] on entering the node, [None] when the
    schema does not know the field. *)
Record FieldNode : Type := {
  fieldName : string;
  getType_ : option GraphQLType
}.

(** An operation document, as the sequence of its [Field] nodes in the
    order [visit] enters them. *)
Definition DocumentNode : Type := list FieldNode.

End GraphQL.

Export GraphQL.

(** ** Configuration *)

(** Modelled from the spec: [AvoidOptionalsConfig] is declared in
    [./types], which is outside the file embedded here; section 4.1 gives
    it one optional flag per field kind (input value, field, argument). *)
Record AvoidOptionalsConfig : Type := {
  inputValue : option bool;
  field : option bool;
  argument : option bool
}.

(** [boolean | AvoidOptionalsConfig]. *)
Inductive AvoidOptionals : Type :=
| AvoidOptionalsFlag (flag : bool)
| AvoidOptionalsPerKind (kinds : AvoidOptionalsConfig).

(** Modelled from the spec: [RawTypesConfig] comes from
    [visitor-plugin-common], which is outside the file embedded here;
    section 4.1 names the scalars map and the naming convention. *)
Record RawTypesConfig : Type := {
  scalars : list (string * string);
  namingConvention : option string
}.

(** [TypeScriptPluginConfig extends RawTypesConfig]; every own option is
    optional. *)
Record TypeScriptPluginConfig : Type := {
  rawTypesConfig : RawTypesConfig;
  avoidOptionals : option AvoidOptionals;
  constEnums : option bool;
  enumsAsTypes : option bool;
  immutableTypes : option bool;
  maybeValue : option string;
  noExport : option bool;
  generateOnly : option (list string)
}.

(** The same configuration with another [generateOnly]. *)
Definition withGenerateOnly (value : option (list string))
           (config : TypeScriptPluginConfig) : TypeScriptPluginConfig :=
  {| rawTypesConfig := rawTypesConfig config;
     avoidOptionals := avoidOptionals config;
     constEnums := constEnums config;
     enumsAsTypes := enumsAsTypes config;
     immutableTypes := immutableTypes config;
     maybeValue := maybeValue config;
     noExport := noExport config;
     generateOnly := value |}.

(** ** Collaborators of the plugin *)

(** What [plugin] reads from an instance of [TsVisitor] ([./visitor], outside
    the file embedded here): the callback that [visit] applies on
    leaving a type definition, and four accessors.  The class is a
    parameter of the development: [newTsVisitor schema config] stands for
    [new TsVisitor(schema, config)]. *)
Record TsVisitor : Type := {
  leave : GraphQLNamedType -> string;
  getMaybeValue : string;
  scalarsDefinition : string;
  getEnumsImports : list string;
  getScalarsImports : list string
}.

Definition TsVisitorClass : Type :=
  GraphQLSchema -> TypeScriptPluginConfig -> TsVisitor.

(** [Types.DocumentFile]. *)
Record DocumentFile : Type := {
  filePath : string;
  content_ : DocumentNode
}.

(** The object [plugin] returns. *)
Record PluginOutput : Type := {
  prepend : list string;
  content : string
}.

(** The error taxonomy of section 7 of the specification. *)
Inductive PluginError : Type :=
| ConfigurationError
| SchemaIntegrityError.

(** How a call ends: it returns a value, it throws, or the model runs out
    of fuel before the call has ended. *)
Inductive Completion (A : Type) : Type :=
| Return (value : A)
| Throw (error : PluginError)
| OutOfFuel.

Arguments Return {A} value.
Arguments Throw {A} error.
Arguments OutOfFuel {A}.

(** Modelled from the spec: the Schema Type-Graph Walker of section 4.2,
    which in the code is [visit(parse(printSchema(schema)), ...)] of
    graphql-js driven by the absent [TsVisitor].  It visits every named
    type of the schema's type map exactly once, in declared order, leaving
    out the introspection meta-types.  The walker is taken whole from the
    specification; what graphql-js itself prints is not modelled apart
    from it. *)
Definition printSchema (schema : GraphQLSchema) : list GraphQLNamedType :=
  filter (fun type => negb (isIntrospectionType (typeName type))) (typeMap schema).

(** Modelled from the spec: [visit(astNode, { leave: visitor }).definitions]
    under the walker of section 4.2; every visited definition is replaced
    by the declaration the visitor returns for it. *)
Definition visit (astNode : list GraphQLNamedType) (visitor : TsVisitor) : list string :=
  map (leave visitor) astNode.

(** Modelled from the spec: [TsIntrospectionVisitor]
    ([./introspection-visitor], outside the file embedded here), step (4)
    of section 4.4: the collected types are rendered by the emitter of
    [TsVisitor], with the printed introspection schema as the parse
    source; a definition whose type was not collected yields [None] and
    leaves no declaration. *)
Definition TsIntrospectionVisitor (newTsVisitor : TsVisitorClass)
           (schema : GraphQLSchema) (config : TypeScriptPluginConfig)
           (typesToInclude : list string) (node : GraphQLNamedType) : option string :=
  if existsb (fun type => String.eqb type (typeName node)) typesToInclude
  then Some (leave (newTsVisitor schema config) node)
  else None.

(** Modelled from the spec: [visit] with the introspection visitor; the
    definitions for which the visitor yields nothing are removed. *)
Definition visitIntrospection (astNode : list GraphQLNamedType)
           (visitor : GraphQLNamedType -> option string) : list string :=
  flat_map (fun node => match visitor node with
                        | Some declaration => [declaration]
                        | None => []
                        end) astNode.

(** ** The Introspection-Type Includer (index.ts, lines 172-217) *)

Section Plugin.

Variable newTsVisitor : TsVisitorClass.

(** The [Field()] callback of [documentsVisitor] (lines 176-182), with the
    captured array [usedTypes] passed in and returned. *)
Definition Field (usedTypes : list string) (node : FieldNode) : list string :=
  match getType_ node with
  | Some fieldType =>
      let type := getNamedType fieldType in
      if isIntrospectionType type && negb (Js.arrayIncludes usedTypes type)
      then usedTypes ++ [type]
      else usedTypes
  | None => usedTypes
  end.

(** [documents.forEach(doc => visit(doc.content, documentsVisitor))]
    (line 185), starting from the empty [usedTypes] of line 174. *)
Definition collectUsedTypes (documents : list DocumentFile) : list string :=
  fold_left (fun usedTypes doc => fold_left Field (content_ doc) usedTypes)
            documents [].

(** [collectTypes] (lines 198-214).  The captured array [typesToInclude]
    is passed in and returned.  The recursion follows the type graph,
    which may be cyclic, so it is bounded by [fuel]: [None] means that the
    bound was reached before the call ended. *)
Fixpoint collectTypes (fuel : nat) (schema : GraphQLSchema)
         (typesToInclude : list string) (type : string) : option (list string) :=
  match fuel with
  | O => None
  | S fuel' =>
      if Js.arrayIncludes typesToInclude type then Some typesToInclude
      else
        let typesToInclude := typesToInclude ++ [type] in
        if isObjectType schema type then
          let fields := getFields schema type in
          Js.forEach
            (fun typesToInclude (entry : string * GraphQLType) =>
               let type := getNamedType (snd entry) in
               collectTypes fuel' schema typesToInclude type)
            fields typesToInclude
        else Some typesToInclude
  end.

(** [usedTypes.forEach(type => { collectTypes(type); })] (lines 187-191). *)
Definition collectAllTypes (fuel : nat) (schema : GraphQLSchema)
           (usedTypes : list string) : option (list string) :=
  Js.forEach (collectTypes fuel schema) usedTypes [].

(** [includeIntrospectionDefinitions] (lines 172-217). *)
Definition includeIntrospectionDefinitions (fuel : nat) (schema : GraphQLSchema)
           (documents : list DocumentFile) (config : TypeScriptPluginConfig)
  : option (list string) :=
  let usedTypes := collectUsedTypes documents in
  match collectAllTypes fuel schema usedTypes with
  | None => None
  | Some typesToInclude =>
      let visitor := TsIntrospectionVisitor newTsVisitor schema config typesToInclude in
      let result := visitIntrospection (printIntrospectionSchema schema) visitor in
      Some result
  end.

(** ** The entry point (index.ts, lines 151-170) *)

(** The condition of line 160:
    [config.generateOnly && config.generateOnly.length > 0 &&
     config.generateOnly[0] === 'enums']. *)
Definition generateOnlyEnums (config : TypeScriptPluginConfig) : bool :=
  match generateOnly config with
  | None => false
  | Some array =>
      Nat.ltb 0 (List.length array)
      && match nth_error array 0 with
         | Some first => String.eqb first "enums"
         | None => false
         end
  end.

(** [plugin] (lines 151-170).  No statement of the function throws; it
    ends by one of its two [return]s once
    [includeIntrospectionDefinitions] has ended. *)
Definition plugin (fuel : nat) (schema : GraphQLSchema)
           (documents : list DocumentFile) (config : TypeScriptPluginConfig)
  : Completion PluginOutput :=
  let visitor := newTsVisitor schema config in
  let astNode := printSchema schema in
  let maybeValue := getMaybeValue visitor in
  let definitions := visit astNode visitor in
  match includeIntrospectionDefinitions fuel schema documents config with
  | None => OutOfFuel
  | Some introspectionDefinitions =>
      let scalars := scalarsDefinition visitor in
      if generateOnlyEnums config then
        Return {| prepend := [];
                  content :=
                    Js.join Js.LF
                      [Js.Arr (map Js.Str
                         (filter (fun d => Js.includes d "export enum") definitions))] |}
      else
        Return {| prepend := getEnumsImports visitor ++ getScalarsImports visitor
                             ++ [maybeValue];
                  content :=
                    Js.join Js.LF
                      (map Js.Str
                         (scalars :: definitions ++ introspectionDefinitions)) |}
  end.

End Plugin.

(** The fuel that is enough for every call on [schema]: one more than the
    number of types in its type map. *)
Definition enoughFuel (schema : GraphQLSchema) : nat :=
  S (List.length (typeMap schema)).

(** ** The type graph *)

(** [target] is the named type of a field of the object type [source]:
    one step of [collectTypes] from [source]. *)
Definition fieldTarget (schema : GraphQLSchema) (source target : string) : Prop :=
  isObjectType schema source = true
  /\ In target (map (fun entry => getNamedType (snd entry)) (getFields schema source)).

(** The types structurally reachable from [origin]: [origin] itself and,
    recursively, the named types of the fields of the Object-variant types
    reached.  Interfaces and unions are reached but not expanded. *)
Inductive reachable (schema : GraphQLSchema) (origin : string) : string -> Prop :=
| reachable_origin : reachable schema origin origin
| reachable_field (via target : string) :
    reachable schema origin via ->
    fieldTarget schema via target ->
    reachable schema origin target.

(** The named type that the [Field] callback tests, if the node has one. *)
Definition usesType (node : FieldNode) (type : string) : Prop :=
  exists fieldType, getType_ node = Some fieldType /\ getNamedType fieldType = type.

(** Every type that a call added to [before] has the targets of its
    fields in [after]. *)
Definition closedSince (schema : GraphQLSchema) (before after : list string) : Prop :=
  forall source, In source after -> ~ In source before ->
  forall target, fieldTarget schema source target -> In target after.

(** The number of entries of the type map that are not yet in
    [typesToInclude]: the quantity that shrinks along the recursion of
    [collectTypes]. *)
Definition unvisited (schema : GraphQLSchema) (typesToInclude : list string) : nat :=
  List.length
    (filter (fun type => negb (Js.arrayIncludes typesToInclude (typeName type)))
            (typeMap schema)).

(** The number of walked types called [name]. *)
Definition declarationsOf (name : string) (walked : list GraphQLNamedType) : nat :=
  List.length (filter (fun type => String.eqb (typeName type) name) walked).

(** The types reached from [origin] along fields of object types without
    passing through a type of [present]: what a call of [collectTypes]
    can still enter when [present] is its accumulator (line 199). *)
Inductive reachableAvoiding (schema : GraphQLSchema) (present : list string)
          (origin : string) : string -> Prop :=
| avoiding_origin :
    ~ In origin present -> reachableAvoiding schema present origin origin
| avoiding_field (via target : string) :
    reachableAvoiding schema present origin via ->
    fieldTarget schema via target ->
    ~ In target present ->
    reachableAvoiding schema present origin target.

(** Some [Field] node of some document has the named type [type]. *)
Definition usedBy (documents : list DocumentFile) (type : string) : Prop :=
  exists doc node, In doc documents /\ In node (content_ doc) /\ usesType node type.

(** ** An emitter after section 4.3 *)

Module Emitter.

Local Open Scope string_scope.

Definition flag (option : option bool) : bool :=
  match option with
  | Some value => value
  | None => false
  end.

(** Modelled from the spec: section 6, [noExport] suppresses the export
    modifier of every declaration. *)
Definition exportModifier (config : TypeScriptPluginConfig) : string :=
  if flag (noExport config) then "" else "export ".

(** Modelled from the spec: section 4.1 (a), a scalar name is mapped to
    the configured primitive, with [any] for a scalar that is not
    configured. *)
Fixpoint scalarOf (table : list (string * string)) (name : string) : string :=
  match table with
  | [] => "any"
  | (scalar, primitive) :: rest =>
      if String.eqb scalar name then primitive else scalarOf rest name
  end.

Definition defaultScalars : list (string * string) :=
  [ ("ID", "string"); ("String", "string"); ("Boolean", "boolean");
    ("Int", "number"); ("Float", "number") ].

Definition scalarsTable (config : TypeScriptPluginConfig) : list (string * string) :=
  (scalars (rawTypesConfig config) ++ defaultScalars)%list.

Definition referenceTo (schema : GraphQLSchema) (config : TypeScriptPluginConfig)
           (name : string) : string :=
  match getType schema name with
  | Some (GraphQLScalarType _) => scalarOf (scalarsTable config) name
  | _ => name
  end.

(** Modelled from the spec: section 4.3, the rendering of a type
    reference: [List] is an array, [NonNull] is the bare type, anything
    else is put under the [Maybe] wrapper.  [array] is the array type in
    use and [reference] renders a type name. *)
Fixpoint renderType (array : string) (reference : string -> string)
         (nullable : bool) (type : GraphQLType) : string :=
  let wrap (text : string) : string :=
    if nullable then "Maybe<" ++ text ++ ">" else text in
  match type with
  | Named name => wrap (reference name)
  | GraphQLList ofType =>
      wrap (array ++ "<" ++ renderType array reference true ofType ++ ">")
  | GraphQLNonNull ofType => renderType array reference false ofType
  end.

(** Modelled from the spec: section 4.3, arrays take the read-only form
    under [immutableTypes]. *)
Definition arrayType (config : TypeScriptPluginConfig) : string :=
  if flag (immutableTypes config) then "ReadonlyArray" else "Array".

Definition isNonNull (type : GraphQLType) : bool :=
  match type with
  | GraphQLNonNull _ => true
  | _ => false
  end.

(** Modelled from the spec: section 4.1 (b), the optional marker is kept
    unless [avoidOptionals] suppresses it, as a whole or for the kind of
    member at hand. *)
Definition avoidsOptionals (config : TypeScriptPluginConfig) (input : bool) : bool :=
  match avoidOptionals config with
  | None => false
  | Some (AvoidOptionalsFlag value) => value
  | Some (AvoidOptionalsPerKind kinds) =>
      flag (if input then inputValue kinds else field kinds)
  end.

(** Modelled from the spec: section 4.3, one member of a structural
    record. *)
Definition renderMember (schema : GraphQLSchema) (config : TypeScriptPluginConfig)
           (input : bool) (entry : string * GraphQLType) : string :=
  "  " ++ (if flag (immutableTypes config) then "readonly " else "")
       ++ fst entry
       ++ (if isNonNull (snd entry) || avoidsOptionals config input then "" else "?")
       ++ ": "
       ++ renderType (arrayType config) (referenceTo schema config) true (snd entry)
       ++ "," ++ Js.LF.

Definition implementers (schema : GraphQLSchema) (interface : string) : list string :=
  flat_map (fun type =>
              match type with
              | GraphQLObjectType name _ interfaces =>
                  if Js.arrayIncludes interfaces interface then [name] else []
              | _ => []
              end) (typeMap schema).

Definition sumOf (members : list string) : string :=
  match members with
  | [] => "never"
  | _ => String.concat " | " members
  end.

(** Modelled from the spec: the Type Declaration Emitter of section 4.3,
    which stands for the [leave] callbacks of the absent [TsVisitor]:
    a scalar is an alias of its primitive; an enum is a native
    enumeration ([const] under [constEnums]) or, under [enumsAsTypes], a
    union of string literals; an object or input object is a structural
    record; an interface or a union is a sum-type alias over the names of
    its members.  The naming convention is the identity. *)
Definition emit (schema : GraphQLSchema) (config : TypeScriptPluginConfig)
           (type : GraphQLNamedType) : string :=
  let record (name : string) (input : bool) (fields : FieldMap) : string :=
    exportModifier config ++ "type " ++ name ++ " = {" ++ Js.LF
      ++ String.concat "" (map (renderMember schema config input) fields) ++ "};" in
  match type with
  | GraphQLScalarType name =>
      exportModifier config ++ "type " ++ name ++ " = "
        ++ scalarOf (scalarsTable config) name ++ ";"
  | GraphQLEnumType name values =>
      if flag (enumsAsTypes config) then
        exportModifier config ++ "type " ++ name ++ " = "
          ++ sumOf (map (fun value => "'" ++ value ++ "'") values) ++ ";"
      else
        exportModifier config
          ++ (if flag (constEnums config) then "const " else "")
          ++ "enum " ++ name ++ " {" ++ Js.LF
          ++ String.concat ""
               (map (fun value => "  " ++ value ++ " = '" ++ value ++ "'," ++ Js.LF) values)
          ++ "}"
  | GraphQLObjectType name fields _ => record name false fields
  | GraphQLInputObjectType name fields => record name true fields
  | GraphQLInterfaceType name _ =>
      exportModifier config ++ "type " ++ name ++ " = "
        ++ sumOf (implementers schema name) ++ ";"
  | GraphQLUnionType name types =>
      exportModifier config ++ "type " ++ name ++ " = " ++ sumOf types ++ ";"
  end.

(** Modelled from the spec: section 6, [maybeValue] is the template of the
    nullable wrapper, [T | null] by default. *)
Definition maybeAlias (config : TypeScriptPluginConfig) : string :=
  exportModifier config ++ "type Maybe<T> = "
    ++ match maybeValue config with
       | Some template => template
       | None => "T | null"
       end ++ ";".

(** Modelled from the spec: an instance of the absent [TsVisitor] built
    from the emitter above.  The specification does not describe
    [scalarsDefinition] nor the import lines; a record of the scalars
    table stands for the former and there are no imports. *)
Definition tsVisitor : TsVisitorClass :=
  fun schema config =>
    {| leave := emit schema config;
       getMaybeValue := maybeAlias config;
       scalarsDefinition :=
         exportModifier config ++ "type Scalars = {" ++ Js.LF
           ++ String.concat ""
                (map (fun entry => "  " ++ fst entry ++ ": " ++ snd entry ++ "," ++ Js.LF)
                     (scalarsTable config))
           ++ "};";
       getEnumsImports := [];
       getScalarsImports := [] |}.

End Emitter.

(** ** Concrete schemas, documents and configurations *)

Module Sample.

Definition nonNull (name : string) : GraphQLType := GraphQLNonNull (Named name).
Definition listOfNonNull (name : string) : GraphQLType :=
  GraphQLList (GraphQLNonNull (Named name)).

(** The introspection types of graphql-js with their fields. *)
Definition introspection : list GraphQLNamedType :=
  [ GraphQLObjectType "__Schema"
      [ ("types", GraphQLNonNull (listOfNonNull "__Type"));
        ("queryType", nonNull "__Type");
        ("mutationType", Named "__Type");
        ("subscriptionType", Named "__Type");
        ("directives", GraphQLNonNull (listOfNonNull "__Directive")) ] [];
    GraphQLObjectType "__Directive"
      [ ("name", nonNull "String");
        ("description", Named "String");
        ("locations", GraphQLNonNull (listOfNonNull "__DirectiveLocation"));
        ("args", GraphQLNonNull (listOfNonNull "__InputValue")) ] [];
    GraphQLEnumType "__DirectiveLocation" [ "QUERY"; "MUTATION"; "FIELD" ];
    GraphQLObjectType "__Type"
      [ ("kind", nonNull "__TypeKind");
        ("name", Named "String");
        ("description", Named "String");
        ("fields", listOfNonNull "__Field");
        ("interfaces", listOfNonNull "__Type");
        ("possibleTypes", listOfNonNull "__Type");
        ("enumValues", listOfNonNull "__EnumValue");
        ("inputFields", listOfNonNull "__InputValue");
        ("ofType", Named "__Type") ] [];
    GraphQLObjectType "__Field"
      [ ("name", nonNull "String");
        ("description", Named "String");
        ("args", GraphQLNonNull (listOfNonNull "__InputValue"));
        ("type", nonNull "__Type");
        ("isDeprecated", nonNull "Boolean");
        ("deprecationReason", Named "String") ] [];
    GraphQLObjectType "__InputValue"
      [ ("name", nonNull "String");
        ("description", Named "String");
        ("type", nonNull "__Type");
        ("defaultValue", Named "String") ] [];
    GraphQLObjectType "__EnumValue"
      [ ("name", nonNull "String");
        ("description", Named "String");
        ("isDeprecated", nonNull "Boolean");
        ("deprecationReason", Named "String") ] [];
    GraphQLEnumType "__TypeKind"
      [ "SCALAR"; "OBJECT"; "INTERFACE"; "UNION"; "ENUM"; "INPUT_OBJECT";
        "LIST"; "NON_NULL" ] ].

(** The example schema of section 8, with two enums, a custom scalar, an
    interface, a union and an input object added, followed by the
    built-in scalars and the introspection types. *)
Definition schema : GraphQLSchema :=
  {| typeMap :=
       [ GraphQLObjectType "Query"
           [ ("userById", Named "User"); ("search", listOfNonNull "SearchResult") ] [];
         GraphQLObjectType "User"
           [ ("id", nonNull "Int"); ("name", nonNull "String");
             ("profile", Named "Profile"); ("favourite", Named "Color") ] ["Node"];
         GraphQLObjectType "Profile"
           [ ("bio", Named "String"); ("owner", Named "User") ] [];
         GraphQLInterfaceType "Node" [ ("id", nonNull "Int") ];
         GraphQLUnionType "SearchResult" [ "User"; "Profile" ];
         GraphQLEnumType "Color" [ "RED"; "GREEN" ];
         GraphQLEnumType "Size" [ "SMALL"; "LARGE" ];
         GraphQLInputObjectType "UserFilter" [ ("size", Named "Size") ];
         GraphQLScalarType "Date";
         GraphQLScalarType "Int";
         GraphQLScalarType "String";
         GraphQLScalarType "Boolean" ] ++ introspection |}.

(** A schema with the two enums only. *)
Definition enumSchema : GraphQLSchema :=
  {| typeMap :=
       [ GraphQLEnumType "Color" [ "RED"; "GREEN" ];
         GraphQLEnumType "Size" [ "SMALL"; "LARGE" ] ] |}.

(** The empty configuration [{}]. *)
Definition config : TypeScriptPluginConfig :=
  {| rawTypesConfig := {| scalars := []; namingConvention := None |};
     avoidOptionals := None;
     constEnums := None;
     enumsAsTypes := None;
     immutableTypes := None;
     maybeValue := None;
     noExport := None;
     generateOnly := None |}.

(** [generateOnly: ['enums']]. *)
Definition enumsConfig : TypeScriptPluginConfig :=
  withGenerateOnly (Some ["enums"]) config.

(** [generateOnly: []]. *)
Definition emptyListConfig : TypeScriptPluginConfig :=
  withGenerateOnly (Some []) config.

(** [generateOnly: ['enums'], noExport: true]. *)
Definition noExportEnumsConfig : TypeScriptPluginConfig :=
  {| rawTypesConfig := {| scalars := []; namingConvention := None |};
     avoidOptionals := None;
     constEnums := None;
     enumsAsTypes := None;
     immutableTypes := None;
     maybeValue := None;
     noExport := Some true;
     generateOnly := Some ["enums"] |}.

(** [generateOnly: ['types']], a value outside the declared type. *)
Definition invalidConfig : TypeScriptPluginConfig :=
  withGenerateOnly (Some ["types"]) config.

(** [query { __type(name: "User") { name } }]: the field [__type] has the
    type [__Type], its sub-field [name] the type [String]. *)
Definition typeNameQuery : DocumentFile :=
  {| filePath := "type-name.graphql";
     content_ := [ {| fieldName := "__type"; getType_ := Some (Named "__Type") |};
                   {| fieldName := "name"; getType_ := Some (Named "String") |} ] |}.

(** [query { userById { name } }]: no introspection type is involved. *)
Definition userQuery : DocumentFile :=
  {| filePath := "user.graphql";
     content_ := [ {| fieldName := "userById"; getType_ := Some (Named "User") |};
                   {| fieldName := "name"; getType_ := Some (nonNull "String") |} ] |}.

(** [fragment F on __Type { name }]: the one field selected, [name] of
    [__Type], has the type [String]. *)
Definition typeFragment : DocumentFile :=
  {| filePath := "type-fragment.graphql";
     content_ := [ {| fieldName := "name"; getType_ := Some (Named "String") |} ] |}.

(** The [__Type] entry of [introspection]. *)
Definition metaType : GraphQLNamedType :=
  GraphQLObjectType "__Type"
    [ ("kind", nonNull "__TypeKind");
      ("name", Named "String");
      ("description", Named "String");
      ("fields", listOfNonNull "__Field");
      ("interfaces", listOfNonNull "__Type");
      ("possibleTypes", listOfNonNull "__Type");
      ("enumValues", listOfNonNull "__EnumValue");
      ("inputFields", listOfNonNull "__InputValue");
      ("ofType", Named "__Type") ] [].




End Sample.

(** ** The arrays of the includer as program state *)

(** [usedTypes] and [typesToInclude] are arrays that the closures of
    [includeIntrospectionDefinitions] mutate.  Here they live in a heap
    that is handed from one statement to the next and from one call to
    the next, so that what a call finds in the heap and what it leaves
    there is explicit. *)
Module Stateful.

(** The arrays allocated so far, by address. *)
Definition Heap : Type := list (list string).

Definition read (heap : Heap) (array : nat) : list string := nth array heap [].

Fixpoint write (heap : Heap) (array : nat) (elements : list string) : Heap :=
  match heap, array with
  | [], _ => []
  | _ :: rest, O => elements :: rest
  | first :: rest, S array' => first :: write rest array' elements
  end.

(** The array literal [[]]: a new, empty array at the next address. *)
Definition newArray (heap : Heap) : nat * Heap :=
  (List.length heap, heap ++ [[]]).

(** [array.push(x)]. *)
Definition push (heap : Heap) (array : nat) (x : string) : Heap :=
  write heap array (read heap array ++ [x]).

(** [new TsVisitor(schema, config)] evaluated in a program state: the
    class is outside the file embedded here and may keep state of its
    own, so the instance it builds is allowed to depend on the state. *)
Definition TsVisitorClassIn : Type :=
  Heap -> GraphQLSchema -> TypeScriptPluginConfig -> TsVisitor.

Section Plugin.

Variable newTsVisitor : TsVisitorClassIn.

(** The [Field()] callback (lines 176-182) on the array at [usedTypes]. *)
Definition Field (usedTypes : nat) (heap : Heap) (node : FieldNode) : Heap :=
  match getType_ node with
  | Some fieldType =>
      let type := getNamedType fieldType in
      if isIntrospectionType type && negb (Js.arrayIncludes (read heap usedTypes) type)
      then push heap usedTypes type
      else heap
  | None => heap
  end.

(** [collectTypes] (lines 198-214) on the array at [typesToInclude]. *)
Fixpoint collectTypes (fuel : nat) (schema : GraphQLSchema) (typesToInclude : nat)
         (heap : Heap) (type : string) : option Heap :=
  match fuel with
  | O => None
  | S fuel' =>
      if Js.arrayIncludes (read heap typesToInclude) type then Some heap
      else
        let heap := push heap typesToInclude type in
        if isObjectType schema type then
          let fields := getFields schema type in
          Js.forEach
            (fun heap (entry : string * GraphQLType) =>
               let type := getNamedType (snd entry) in
               collectTypes fuel' schema typesToInclude heap type)
            fields heap
        else Some heap
  end.

(** [includeIntrospectionDefinitions] (lines 172-217): both arrays are
    created by the call (lines 174 and 187). *)
Definition includeIntrospectionDefinitions (fuel : nat) (schema : GraphQLSchema)
           (documents : list DocumentFile) (config : TypeScriptPluginConfig)
           (heap : Heap) : option (list string * Heap) :=
  let (usedTypes, heap) := newArray heap in
  let heap :=
    fold_left (fun heap doc => fold_left (Field usedTypes) (content_ doc) heap)
              documents heap in
  let (typesToInclude, heap) := newArray heap in
  match Js.forEach (collectTypes fuel schema typesToInclude) (read heap usedTypes) heap with
  | None => None
  | Some heap =>
      let visitor :=
        TsIntrospectionVisitor (newTsVisitor heap) schema config
                               (read heap typesToInclude) in
      let result := visitIntrospection (printIntrospectionSchema schema) visitor in
      Some (result, heap)
  end.

(** [plugin] (lines 151-170), returning its result and the heap it
    leaves. *)
Definition plugin (fuel : nat) (schema : GraphQLSchema)
           (documents : list DocumentFile) (config : TypeScriptPluginConfig)
           (heap : Heap) : Completion (PluginOutput * Heap) :=
  let visitor := newTsVisitor heap schema config in
  let astNode := printSchema schema in
  let maybeValue := getMaybeValue visitor in
  let definitions := visit astNode visitor in
  match includeIntrospectionDefinitions fuel schema documents config heap with
  | None => OutOfFuel
  | Some (introspectionDefinitions, heap) =>
      let scalars := scalarsDefinition visitor in
      if generateOnlyEnums config then
        Return ({| prepend := [];
                   content :=
                     Js.join Js.LF
                       [Js.Arr (map Js.Str
                          (filter (fun d => Js.includes d "export enum") definitions))] |},
                heap)
      else
        Return ({| prepend := getEnumsImports visitor ++ getScalarsImports visitor
                              ++ [maybeValue];
                   content :=
                     Js.join Js.LF
                       (map Js.Str
                          (scalars :: definitions ++ introspectionDefinitions)) |},
                heap)
  end.

End Plugin.

End Stateful.

(** The heap a call on [documents] leaves when it started in [heap] and
    collected [typesToInclude]: the two arrays of the call after what was
    there. *)
Definition heapAfter (documents : list DocumentFile) (heap : Stateful.Heap)
           (typesToInclude : list string) : Stateful.Heap :=
  Stateful.write
    (Stateful.write (heap ++ [[]]) (List.length heap) (collectUsedTypes documents) ++ [[]])
    (S (List.length heap)) typesToInclude.

(** * Properties *)

(** ** Arrays *)

Lemma arrayIncludes_true (array : list string) (x : string) :
  Js.arrayIncludes array x = true <-> In x array.
Proof.
  unfold Js.arrayIncludes. rewrite existsb_exists. split.
  - intros [y [Hy Heq]]. apply String.eqb_eq in Heq. now subst.
  - intros Hx. exists x. split; [assumption | apply String.eqb_refl].
Qed.

Lemma arrayIncludes_false (array : list string) (x : string) :
  Js.arrayIncludes array x = false <-> ~ In x array.
Proof.
  rewrite <- arrayIncludes_true. destruct (Js.arrayIncludes array x); split;
    intros H; try reflexivity; try discriminate; try (intros D; discriminate).
  exfalso. now apply H.
Qed.

Lemma toString_Str (strings : list string) :
  map Js.toString (map Js.Str strings) = strings.
Proof.
  induction strings as [|s rest IH]; simpl; [reflexivity | now rewrite IH].
Qed.

Lemma join_strings (separator : string) (strings : list string) :
  Js.join separator (map Js.Str strings) = String.concat separator strings.
Proof. unfold Js.join. now rewrite toString_Str. Qed.

(** An array inside an array literal is converted with a comma, whatever
    separator the outer [join] is given. *)
Lemma join_nested_array (separator : string) (strings : list string) :
  Js.join separator [Js.Arr (map Js.Str strings)] = String.concat "," strings.
Proof. unfold Js.join. simpl. now rewrite toString_Str. Qed.

Lemma filter_map_commute {A B : Type} (f : A -> B) (p : B -> bool) (l : list A) :
  filter p (map f l) = map f (filter (fun x => p (f x)) l).
Proof.
  induction l as [|x rest IH]; simpl; [reflexivity|].
  destruct (p (f x)); simpl; now rewrite IH.
Qed.

Lemma filter_length_mono {A : Type} (p q : A -> bool) (l : list A) :
  (forall x, In x l -> p x = true -> q x = true) ->
  List.length (filter p l) <= List.length (filter q l).
Proof.
  induction l as [|x rest IH]; intros Hpq; simpl; [lia|].
  assert (Hrest : List.length (filter p rest) <= List.length (filter q rest)).
  { apply IH. intros y Hy. apply Hpq. now right. }
  destruct (p x) eqn:Hp.
  - rewrite (Hpq x (or_introl eq_refl) Hp). simpl. lia.
  - destruct (q x); simpl; lia.
Qed.

Lemma filter_length_strict {A : Type} (p q : A -> bool) (l : list A) (witness : A) :
  (forall x, In x l -> p x = true -> q x = true) ->
  In witness l -> q witness = true -> p witness = false ->
  List.length (filter p l) < List.length (filter q l).
Proof.
  induction l as [|x rest IH]; intros Hpq Hin Hq Hp; simpl; [contradiction|].
  assert (Hle : List.length (filter p rest) <= List.length (filter q rest)).
  { apply filter_length_mono. intros y Hy. apply Hpq. now right. }
  destruct Hin as [-> | Hin].
  - rewrite Hp, Hq. simpl. lia.
  - assert (Hlt : List.length (filter p rest) < List.length (filter q rest)).
    { apply IH; try assumption. intros y Hy. apply Hpq. now right. }
    destruct (p x) eqn:Hpx.
    + rewrite (Hpq x (or_introl eq_refl) Hpx). simpl. lia.
    + destruct (q x); simpl; lia.
Qed.

(** ** Loops *)

Lemma forEach_map {A B S : Type} (f : A -> B) (body : S -> B -> option S)
      (array : list A) (state : S) :
  Js.forEach (fun st x => body st (f x)) array state = Js.forEach body (map f array) state.
Proof.
  revert state. induction array as [|x rest IH]; intros state; simpl; [reflexivity|].
  destruct (body state (f x)); [apply IH | reflexivity].
Qed.

Lemma forEach_single {A S : Type} (body : S -> A -> option S) (x : A) (state : S) :
  Js.forEach body [x] state = body state x.
Proof. simpl. now destruct (body state x). Qed.

(** A relation between states that every iteration respects is respected
    by the loop. *)
Lemma forEach_preserves {A S : Type} (body : S -> A -> option S) (R : S -> S -> Prop) :
  (forall st, R st st) ->
  (forall a b c, R a b -> R b c -> R a c) ->
  (forall st x st', body st x = Some st' -> R st st') ->
  forall array st st', Js.forEach body array st = Some st' -> R st st'.
Proof.
  intros Hrefl Htrans Hbody. induction array as [|x rest IH]; intros st st' H; simpl in H.
  - inversion H. apply Hrefl.
  - destruct (body st x) as [mid|] eqn:Hx; [|discriminate].
    apply Htrans with mid; [now apply Hbody with x | now apply IH].
Qed.

(** A loop whose iterations succeed under more fuel succeeds alike. *)
Lemma forEach_mono {A S : Type} (body body' : S -> A -> option S) :
  (forall st x st', body st x = Some st' -> body' st x = Some st') ->
  forall array st st', Js.forEach body array st = Some st' ->
                       Js.forEach body' array st = Some st'.
Proof.
  intros Hmono. induction array as [|x rest IH]; intros st st' H; simpl in *.
  - assumption.
  - destruct (body st x) as [mid|] eqn:Hx; [|discriminate].
    rewrite (Hmono _ _ _ Hx). now apply IH.
Qed.

(** ** [collectTypes] *)

Section CollectTypes.

Variable schema : GraphQLSchema.

(** The body of [collectTypes], one level unfolded. *)
Lemma collectTypes_unfold (fuel : nat) (typesToInclude : list string) (type : string) :
  collectTypes (S fuel) schema typesToInclude type =
  if Js.arrayIncludes typesToInclude type then Some typesToInclude
  else if isObjectType schema type then
         Js.forEach (collectTypes fuel schema)
                    (map (fun entry => getNamedType (snd entry)) (getFields schema type))
                    (typesToInclude ++ [type])
       else Some (typesToInclude ++ [type]).
Proof.
  simpl. destruct (Js.arrayIncludes typesToInclude type); [reflexivity|].
  destruct (isObjectType schema type); [|reflexivity].
  apply (forEach_map (fun entry : string * GraphQLType => getNamedType (snd entry))
                     (collectTypes fuel schema)).
Qed.

(** The four ways a call can go, as a case analysis on a successful call. *)
Ltac collect_cases H Hin Hobj :=
  rewrite collectTypes_unfold in H;
  match type of H with
  | context [Js.arrayIncludes ?acc ?t] =>
      destruct (Js.arrayIncludes acc t) eqn:Hin;
      [ inversion H; subst; clear H
      | destruct (isObjectType schema t) eqn:Hobj;
        [ | inversion H; subst; clear H ] ]
  end.

Lemma collectTypes_incl :
  forall fuel before type after,
    collectTypes fuel schema before type = Some after -> incl before after.
Proof.
  induction fuel as [|fuel IH]; intros before type after H; [discriminate|].
  collect_cases H Hin Hobj.
  - apply incl_refl.
  - apply incl_tran with (before ++ [type]); [apply incl_appl, incl_refl|].
    revert H. apply (forEach_preserves _ (@incl string)).
    + apply incl_refl.
    + intros a b c. apply incl_tran.
    + intros st x st'. apply IH.
  - apply incl_appl, incl_refl.
Qed.

Lemma collectTypes_NoDup :
  forall fuel before type after,
    collectTypes fuel schema before type = Some after -> NoDup before -> NoDup after.
Proof.
  induction fuel as [|fuel IH]; intros before type after H; [discriminate|].
  assert (Hpush : Js.arrayIncludes before type = false ->
                  NoDup before -> NoDup (before ++ [type])).
  { intros Hin Hnd. apply arrayIncludes_false in Hin.
    apply NoDup_app; [assumption | repeat constructor; intros [] | ].
    intros x Hx [<- | []]. now apply Hin. }
  collect_cases H Hin Hobj.
  - trivial.
  - intros Hnd. specialize (Hpush eq_refl Hnd). revert H Hpush.
    apply (forEach_preserves _ (fun a b : list string => NoDup a -> NoDup b)).
    + trivial.
    + intros a b c Hab Hbc Ha. auto.
    + intros st x st'. apply IH.
  - now apply Hpush.
Qed.

Lemma collectTypes_noop (fuel : nat) (before : list string) (type : string) :
  In type before -> collectTypes (S fuel) schema before type = Some before.
Proof.
  intros Hin. rewrite collectTypes_unfold.
  apply arrayIncludes_true in Hin. now rewrite Hin.
Qed.

Lemma forEach_collect_incl (fuel : nat) :
  forall types before after,
    Js.forEach (collectTypes fuel schema) types before = Some after -> incl before after.
Proof.
  apply (forEach_preserves _ (@incl string)).
  - apply incl_refl.
  - intros a b c. apply incl_tran.
  - intros st x st'. apply collectTypes_incl.
Qed.

(** *** The result is closed under the fields of the types it adds *)

Lemma forEach_collect_closed (fuel : nat) :
  (forall before type after,
      collectTypes fuel schema before type = Some after ->
      In type after /\ closedSince schema before after) ->
  forall types before after,
    Js.forEach (collectTypes fuel schema) types before = Some after ->
    incl types after /\ closedSince schema before after.
Proof.
  intros Hcall. induction types as [|type rest IH]; intros before after H; simpl in H.
  - inversion H; subst. split; [intros x [] | intros source Hs Hn; contradiction].
  - destruct (collectTypes fuel schema before type) as [mid|] eqn:Hmid; [|discriminate].
    destruct (Hcall _ _ _ Hmid) as [Htype Hclosed].
    destruct (IH _ _ H) as [Hrest Hclosed'].
    pose proof (forEach_collect_incl fuel _ _ _ H) as Hmono.
    split.
    + intros x [<- | Hx]; [now apply Hmono | now apply Hrest].
    + intros source Hs Hn target Ht.
      destruct (in_dec string_dec source mid) as [Hm | Hm].
      * apply Hmono. now apply (Hclosed source Hm Hn target).
      * now apply (Hclosed' source Hs Hm target).
Qed.

Lemma collectTypes_closed :
  forall fuel before type after,
    collectTypes fuel schema before type = Some after ->
    In type after /\ closedSince schema before after.
Proof.
  induction fuel as [|fuel IH]; intros before type after H; [discriminate|].
  collect_cases H Hin Hobj.
  - split; [now apply arrayIncludes_true | intros source Hs Hn; contradiction].
  - destruct (forEach_collect_closed fuel IH _ _ _ H) as [Htargets Hclosed].
    pose proof (forEach_collect_incl fuel _ _ _ H) as Hmono.
    assert (Htype : In type after) by (apply Hmono, in_or_app; right; now left).
    split; [assumption|].
    intros source Hs Hn target Ht.
    destruct (string_dec source type) as [-> | Hne].
    + apply Htargets. now destruct Ht.
    + apply (Hclosed source Hs); [|assumption].
      intros Happ. apply in_app_or in Happ as [Hb | [Heq | []]]; [now apply Hn | now apply Hne].
  - split; [apply in_or_app; right; now left|].
    intros source Hs Hn target [Hobj' _].
    apply in_app_or in Hs as [Hb | [<- | []]]; [contradiction | congruence].
Qed.

(** *** The result holds nothing but reachable types *)

Lemma reachable_trans (origin via target : string) :
  reachable schema origin via -> reachable schema via target ->
  reachable schema origin target.
Proof.
  intros Hov Hvt. induction Hvt as [|mid target Hvm IH Hstep]; [assumption|].
  now apply reachable_field with mid.
Qed.

Lemma forEach_collect_sound (fuel : nat) :
  (forall before type after,
      collectTypes fuel schema before type = Some after ->
      forall x, In x after -> In x before \/ reachable schema type x) ->
  forall types before after,
    Js.forEach (collectTypes fuel schema) types before = Some after ->
    forall x, In x after ->
              In x before \/ exists type, In type types /\ reachable schema type x.
Proof.
  intros Hcall. induction types as [|type rest IH]; intros before after H x Hx; simpl in H.
  - inversion H; subst. now left.
  - destruct (collectTypes fuel schema before type) as [mid|] eqn:Hmid; [|discriminate].
    destruct (IH _ _ H x Hx) as [Hm | [type' [Hin Hreach]]].
    + destruct (Hcall _ _ _ Hmid x Hm) as [Hb | Hreach]; [now left|].
      right. exists type. split; [now left | assumption].
    + right. exists type'. split; [now right | assumption].
Qed.

Lemma collectTypes_sound :
  forall fuel before type after,
    collectTypes fuel schema before type = Some after ->
    forall x, In x after -> In x before \/ reachable schema type x.
Proof.
  induction fuel as [|fuel IH]; intros before type after H x Hx; [discriminate|].
  collect_cases H Hin Hobj.
  - now left.
  - destruct (forEach_collect_sound fuel IH _ _ _ H x Hx) as [Hb | [target [Hin' Hreach]]].
    + apply in_app_or in Hb as [Hb | [<- | []]]; [now left | right; constructor].
    + right. apply reachable_trans with target; [|assumption].
      apply reachable_field with type; [constructor | now split].
  - apply in_app_or in Hx as [Hb | [<- | []]]; [now left | right; constructor].
Qed.

(** *** Every call ends *)

Lemma unvisited_incl (before after : list string) :
  incl before after -> unvisited schema after <= unvisited schema before.
Proof.
  intros Hincl. apply filter_length_mono. intros type _ Hafter.
  apply negb_true_iff, arrayIncludes_false in Hafter.
  apply negb_true_iff, arrayIncludes_false. intros Hb. now apply Hafter, Hincl.
Qed.

Lemma unvisited_bound (typesToInclude : list string) :
  unvisited schema typesToInclude < enoughFuel schema.
Proof.
  unfold unvisited, enoughFuel.
  pose proof (List.filter_length_le
                (fun type => negb (Js.arrayIncludes typesToInclude (typeName type)))
                (typeMap schema)) as Hle.
  lia.
Qed.

Lemma unvisited_push (typesToInclude : list string) (type : string) :
  isObjectType schema type = true ->
  Js.arrayIncludes typesToInclude type = false ->
  unvisited schema (typesToInclude ++ [type]) < unvisited schema typesToInclude.
Proof.
  intros Hobj Hin. unfold isObjectType, getType in Hobj.
  destruct (find _ (typeMap schema)) as [definition|] eqn:Hfind; [|discriminate].
  apply find_some in Hfind as [Hmem Hname]. apply String.eqb_eq in Hname.
  apply filter_length_strict with definition.
  - intros x _ Hx. apply negb_true_iff, arrayIncludes_false in Hx.
    apply negb_true_iff, arrayIncludes_false. intros Hb. apply Hx, in_or_app. now left.
  - assumption.
  - rewrite Hname. now rewrite Hin.
  - apply negb_false_iff, arrayIncludes_true, in_or_app. right. now left.
Qed.

Lemma forEach_collect_terminates (fuel : nat) :
  (forall before type, unvisited schema before < fuel ->
                       exists after, collectTypes fuel schema before type = Some after) ->
  forall types before,
    unvisited schema before < fuel ->
    exists after, Js.forEach (collectTypes fuel schema) types before = Some after.
Proof.
  intros Hcall. induction types as [|type rest IH]; intros before Hlt; simpl.
  - now exists before.
  - destruct (Hcall before type Hlt) as [mid Hmid]. rewrite Hmid.
    apply IH. pose proof (unvisited_incl _ _ (collectTypes_incl _ _ _ _ Hmid)). lia.
Qed.

Lemma collectTypes_terminates :
  forall fuel before type,
    unvisited schema before < fuel ->
    exists after, collectTypes fuel schema before type = Some after.
Proof.
  induction fuel as [|fuel IH]; intros before type Hlt; [lia|].
  rewrite collectTypes_unfold.
  destruct (Js.arrayIncludes before type) eqn:Hin; [now exists before|].
  destruct (isObjectType schema type) eqn:Hobj; [|now eexists].
  apply forEach_collect_terminates; [assumption|].
  pose proof (unvisited_push before type Hobj Hin). lia.
Qed.

(** *** More fuel does not change the result *)

Lemma collectTypes_more_fuel :
  forall fuel fuel' before type after,
    fuel <= fuel' ->
    collectTypes fuel schema before type = Some after ->
    collectTypes fuel' schema before type = Some after.
Proof.
  induction fuel as [|fuel IH]; intros fuel' before type after Hle H; [discriminate|].
  destruct fuel' as [|fuel']; [lia|].
  rewrite collectTypes_unfold in *.
  destruct (Js.arrayIncludes before type); [assumption|].
  destruct (isObjectType schema type); [|assumption].
  revert H. apply forEach_mono. intros st x st'. apply IH. lia.
Qed.

End CollectTypes.

(** ** The types the documents use *)

Lemma collectUsedTypes_flat (documents : list DocumentFile) :
  collectUsedTypes documents = fold_left Field (flat_map content_ documents) [].
Proof.
  unfold collectUsedTypes. generalize (@nil string).
  induction documents as [|doc rest IH]; intros usedTypes; simpl; [reflexivity|].
  now rewrite IH, fold_left_app.
Qed.

Lemma Field_skips (usedTypes : list string) (node : FieldNode) :
  (forall type, usesType node type -> isIntrospectionType type = false) ->
  Field usedTypes node = usedTypes.
Proof.
  intros Hnone. unfold Field. destruct (getType_ node) as [fieldType|] eqn:Hty; [|reflexivity].
  now rewrite (Hnone (getNamedType fieldType) (ex_intro _ fieldType (conj Hty eq_refl))).
Qed.

Lemma fold_Field_skips (nodes : list FieldNode) (usedTypes : list string) :
  (forall node type, In node nodes -> usesType node type ->
                     isIntrospectionType type = false) ->
  fold_left Field nodes usedTypes = usedTypes.
Proof.
  revert usedTypes. induction nodes as [|node rest IH]; intros usedTypes Hnone; simpl.
  - reflexivity.
  - rewrite Field_skips by (intros type; apply Hnone; now left).
    apply IH. intros n type Hn. apply Hnone. now right.
Qed.

(** When [only] is the one introspection type the nodes use, the array
    stays empty until the first use of it and is [[only]] from then on. *)
Lemma fold_Field_single (only : string) (nodes : list FieldNode) :
  (forall node type, In node nodes -> usesType node type ->
                     isIntrospectionType type = true -> type = only) ->
  isIntrospectionType only = true ->
  fold_left Field nodes [only] = [only]
  /\ ((exists node, In node nodes /\ usesType node only) ->
      fold_left Field nodes [] = [only]).
Proof.
  intros Honly Hintro. induction nodes as [|node rest IH]; simpl.
  - split; [reflexivity | intros [node [[] _]]].
  - assert (Hrest : forall n type, In n rest -> usesType n type ->
                                   isIntrospectionType type = true -> type = only).
    { intros n type Hn. apply Honly. now right. }
    destruct (IH Hrest) as [Hkeep Hfirst]. clear IH.
    assert (Hstep : Field [only] node = [only]
                    /\ (Field [] node = [only] \/
                        (Field [] node = [] /\ ~ usesType node only))).
    { unfold Field. destruct (getType_ node) as [fieldType|] eqn:Hty.
      - destruct (isIntrospectionType (getNamedType fieldType)) eqn:Hi; simpl.
        + assert (Heq : getNamedType fieldType = only).
          { apply (Honly node); [now left | now exists fieldType | assumption]. }
          rewrite Heq. unfold Js.arrayIncludes. simpl. rewrite String.eqb_refl. simpl.
          split; [reflexivity | now left].
        + split; [reflexivity|]. right. split; [reflexivity|].
          intros [fieldType' [Hty' Hname]]. congruence.
      - split; [reflexivity|]. right. split; [reflexivity|].
        intros [fieldType' [Hty' _]]. congruence. }
    destruct Hstep as [Hone Hzero]. rewrite Hone. split; [assumption|].
    intros [n [[<- | Hn] Huse]].
    + destruct Hzero as [-> | [_ Hno]]; [assumption | contradiction].
    + destruct Hzero as [-> | [-> _]]; [assumption|]. apply Hfirst. now exists n.
Qed.

(** ** [includeIntrospectionDefinitions] and [plugin] end *)

Lemma collectAllTypes_returns (schema : GraphQLSchema) (usedTypes : list string) (extra : nat) :
  exists typesToInclude,
    collectAllTypes (enoughFuel schema + extra) schema usedTypes = Some typesToInclude.
Proof.
  unfold collectAllTypes. apply forEach_collect_terminates.
  - intros before type _. apply collectTypes_terminates.
    pose proof (unvisited_bound schema before). lia.
  - pose proof (unvisited_bound schema []). lia.
Qed.

Lemma collectAllTypes_more_fuel (schema : GraphQLSchema) (usedTypes : list string)
      (fuel fuel' : nat) (typesToInclude : list string) :
  fuel <= fuel' ->
  collectAllTypes fuel schema usedTypes = Some typesToInclude ->
  collectAllTypes fuel' schema usedTypes = Some typesToInclude.
Proof.
  intros Hle. unfold collectAllTypes. apply forEach_mono.
  intros st x st'. now apply collectTypes_more_fuel.
Qed.

Lemma collectAllTypes_fuel_irrelevant (schema : GraphQLSchema) (usedTypes : list string)
      (fuel fuel' : nat) (result result' : list string) :
  collectAllTypes fuel schema usedTypes = Some result ->
  collectAllTypes fuel' schema usedTypes = Some result' ->
  result = result'.
Proof.
  intros H H'.
  apply (collectAllTypes_more_fuel _ _ _ (Nat.max fuel fuel')) in H; [|lia].
  apply (collectAllTypes_more_fuel _ _ _ (Nat.max fuel fuel')) in H'; [|lia].
  congruence.
Qed.

Section Returns.

Variable newTsVisitor : TsVisitorClass.
Variable schema : GraphQLSchema.
Variable documents : list DocumentFile.
Variable config : TypeScriptPluginConfig.

Lemma includeIntrospectionDefinitions_returns (extra : nat) :
  exists definitions,
    includeIntrospectionDefinitions newTsVisitor (enoughFuel schema + extra)
                                    schema documents config = Some definitions.
Proof.
  unfold includeIntrospectionDefinitions.
  destruct (collectAllTypes_returns schema (collectUsedTypes documents) extra) as [types ->].
  now eexists.
Qed.

Lemma includeIntrospectionDefinitions_fuel_irrelevant
      (fuel fuel' : nat) (result result' : list string) :
  includeIntrospectionDefinitions newTsVisitor fuel schema documents config = Some result ->
  includeIntrospectionDefinitions newTsVisitor fuel' schema documents config = Some result' ->
  result = result'.
Proof.
  unfold includeIntrospectionDefinitions.
  destruct (collectAllTypes fuel schema _) as [types|] eqn:H; [|discriminate].
  destruct (collectAllTypes fuel' schema _) as [types'|] eqn:H'; [|discriminate].
  rewrite (collectAllTypes_fuel_irrelevant _ _ _ _ _ _ H H'). congruence.
Qed.

(** The normal [return] of [plugin] (lines 166-169). *)
Lemma plugin_full_output (fuel : nat) (introspectionDefinitions : list string) :
  generateOnlyEnums config = false ->
  includeIntrospectionDefinitions newTsVisitor fuel schema documents config
  = Some introspectionDefinitions ->
  plugin newTsVisitor fuel schema documents config =
  Return {| prepend := getEnumsImports (newTsVisitor schema config)
                       ++ getScalarsImports (newTsVisitor schema config)
                       ++ [getMaybeValue (newTsVisitor schema config)];
            content := String.concat Js.LF
                         (scalarsDefinition (newTsVisitor schema config)
                          :: map (leave (newTsVisitor schema config)) (printSchema schema)
                          ++ introspectionDefinitions) |}.
Proof.
  intros Hmode Hintro. unfold plugin. rewrite Hintro, Hmode.
  now rewrite join_strings.
Qed.

(** The [return] of [plugin] under [generateOnly] (lines 161-164). *)
Lemma plugin_enums_output (fuel : nat) (introspectionDefinitions : list string) :
  generateOnlyEnums config = true ->
  includeIntrospectionDefinitions newTsVisitor fuel schema documents config
  = Some introspectionDefinitions ->
  plugin newTsVisitor fuel schema documents config =
  Return {| prepend := [];
            content := String.concat ","
                         (filter (fun d => Js.includes d "export enum")
                                 (map (leave (newTsVisitor schema config))
                                      (printSchema schema))) |}.
Proof.
  intros Hmode Hintro. unfold plugin. rewrite Hintro, Hmode.
  now rewrite join_nested_array.
Qed.

End Returns.

(** ** What the two visitors leave *)

Lemma visitIntrospection_In (newTsVisitor : TsVisitorClass) (schema : GraphQLSchema)
      (config : TypeScriptPluginConfig) (typesToInclude : list string)
      (astNode : list GraphQLNamedType) (declaration : string) :
  In declaration
     (visitIntrospection astNode
        (TsIntrospectionVisitor newTsVisitor schema config typesToInclude))
  <-> exists node, In node astNode /\ In (typeName node) typesToInclude
                   /\ declaration = leave (newTsVisitor schema config) node.
Proof.
  unfold visitIntrospection. rewrite in_flat_map. unfold TsIntrospectionVisitor.
  split.
  - intros [node [Hnode Hin]]. exists node.
    destruct (existsb _ typesToInclude) eqn:Hex; [|contradiction].
    destruct Hin as [<- | []]. apply existsb_exists in Hex as [name [Hname Heq]].
    apply String.eqb_eq in Heq. subst. auto.
  - intros [node [Hnode [Hin ->]]]. exists node. split; [assumption|].
    replace (existsb _ typesToInclude) with true; [now left|].
    symmetry. apply existsb_exists. exists (typeName node).
    split; [assumption | apply String.eqb_refl].
Qed.

Lemma printIntrospectionSchema_In (schema : GraphQLSchema) (type : GraphQLNamedType) :
  In type (printIntrospectionSchema schema)
  <-> In type (typeMap schema) /\ isIntrospectionType (typeName type) = true.
Proof. unfold printIntrospectionSchema. apply filter_In. Qed.

Lemma printSchema_In (schema : GraphQLSchema) (type : GraphQLNamedType) :
  In type (printSchema schema)
  <-> In type (typeMap schema) /\ isIntrospectionType (typeName type) = false.
Proof.
  unfold printSchema. rewrite filter_In. now rewrite negb_true_iff.
Qed.

Lemma declarationsOf_unique (types : list GraphQLNamedType) (type : GraphQLNamedType) :
  NoDup (map typeName types) -> In type types ->
  declarationsOf (typeName type) types = 1.
Proof.
  unfold declarationsOf.
  induction types as [|head rest IH]; intros Hnd Hin; [contradiction|].
  simpl in Hnd. inversion Hnd as [|? ? Hfresh Hrest]; subst. simpl.
  destruct Hin as [-> | Hin].
  - rewrite String.eqb_refl. simpl. f_equal.
    apply length_zero_iff_nil.
    destruct (filter _ rest) as [|other tail] eqn:Hfilter; [reflexivity|].
    assert (Hother : In other (filter (fun t => String.eqb (typeName t) (typeName type)) rest))
      by (rewrite Hfilter; now left).
    apply filter_In in Hother as [Hmem Heq]. apply String.eqb_eq in Heq.
    exfalso. apply Hfresh. rewrite <- Heq. now apply in_map.
  - destruct (String.eqb (typeName head) (typeName type)) eqn:Heq.
    + apply String.eqb_eq in Heq. exfalso. apply Hfresh. rewrite Heq. now apply in_map.
    + now apply IH.
Qed.

Lemma declarationsOf_printSchema (schema : GraphQLSchema) (name : string) :
  declarationsOf name (printSchema schema) =
  if isIntrospectionType name then 0 else declarationsOf name (typeMap schema).
Proof.
  unfold declarationsOf, printSchema.
  induction (typeMap schema) as [|head rest IH]; simpl.
  - now destruct (isIntrospectionType name).
  - destruct (String.eqb (typeName head) name) eqn:Heq.
    + apply String.eqb_eq in Heq. rewrite Heq.
      destruct (isIntrospectionType name) eqn:Hi; simpl.
      * exact IH.
      * rewrite <- Heq at 1. rewrite String.eqb_refl. simpl. now rewrite IH.
    + destruct (negb (isIntrospectionType (typeName head))); simpl;
        [rewrite Heq|]; exact IH.
Qed.

Lemma visitIntrospection_nothing (newTsVisitor : TsVisitorClass) (schema : GraphQLSchema)
      (config : TypeScriptPluginConfig) (astNode : list GraphQLNamedType) :
  visitIntrospection astNode (TsIntrospectionVisitor newTsVisitor schema config []) = [].
Proof.
  destruct (visitIntrospection _ _) as [|declaration rest] eqn:Hvisit; [reflexivity|].
  assert (Hin : In declaration
                   (visitIntrospection astNode
                      (TsIntrospectionVisitor newTsVisitor schema config [])))
    by (rewrite Hvisit; now left).
  apply visitIntrospection_In in Hin as [node [_ [[] _]]].
Qed.

(** From the empty accumulator, [collectTypes] computes the types
    reachable from its argument. *)
Lemma collectTypes_reachable (schema : GraphQLSchema) (fuel : nat) (type : string)
      (result : list string) :
  collectTypes fuel schema [] type = Some result ->
  forall name, In name result <-> reachable schema type name.
Proof.
  intros H name. split.
  - intros Hin. destruct (collectTypes_sound schema _ _ _ _ H name Hin) as [[] | Hreach].
    assumption.
  - destruct (collectTypes_closed schema _ _ _ _ H) as [Htype Hclosed].
    induction 1 as [|via target Hvia IH Hstep]; [assumption|].
    apply (Hclosed via IH); [intros [] | assumption].
Qed.

Lemma generateOnlyEnums_true (config : TypeScriptPluginConfig) :
  generateOnlyEnums config = true
  <-> exists rest, generateOnly config = Some ("enums" :: rest).
Proof.
  unfold generateOnlyEnums. destruct (generateOnly config) as [[|first rest]|]; simpl.
  - split; [discriminate | intros [rest H]; discriminate].
  - split.
    + intros H. apply String.eqb_eq in H. subst. now exists rest.
    + intros [rest' H]. inversion H. reflexivity.
  - split; [discriminate | intros [rest H]; discriminate].
Qed.

Lemma plugin_returns (newTsVisitor : TsVisitorClass) (schema : GraphQLSchema)
      (documents : list DocumentFile) (config : TypeScriptPluginConfig) (extra : nat) :
  exists output,
    plugin newTsVisitor (enoughFuel schema + extra) schema documents config = Return output.
Proof.
  destruct (includeIntrospectionDefinitions_returns newTsVisitor schema documents config extra)
    as [definitions Hintro].
  destruct (generateOnlyEnums config) eqn:Hmode.
  - rewrite (plugin_enums_output _ _ _ _ _ _ Hmode Hintro). now eexists.
  - rewrite (plugin_full_output _ _ _ _ _ _ Hmode Hintro). now eexists.
Qed.

(** [__Type] refers to itself, directly and through [__Field] and
    [__InputValue]; the collection ends all the same, and leaves
    [__Schema], [__Directive] and [__DirectiveLocation] out. *)
Example collectTypes_from_Type :
  collectTypes (enoughFuel Sample.schema) Sample.schema [] "__Type"
  = Some ["__Type"; "__TypeKind"; "String"; "__Field"; "__InputValue";
          "Boolean"; "__EnumValue"].
Proof. reflexivity. Qed.

(** [User] and [Profile] refer to each other. *)
Example collectTypes_from_User :
  collectTypes (enoughFuel Sample.schema) Sample.schema [] "User"
  = Some ["User"; "Int"; "String"; "Profile"; "Color"].
Proof. reflexivity. Qed.

(** With too little fuel the model gives no result. *)
Example collectTypes_out_of_fuel :
  collectTypes 2 Sample.schema [] "__Type" = None.
Proof. reflexivity. Qed.

Example includes_export_enum :
  Js.includes "export const enum A {}" "export enum" = false
  /\ Js.includes "/** doc */ export enum A {}" "export enum" = true.
Proof. split; reflexivity. Qed.

(** The emitter of section 4.3 does not read [generateOnly]. *)
Lemma tsVisitor_ignores_generateOnly (schema : GraphQLSchema)
      (config : TypeScriptPluginConfig) (value : option (list string)) :
  Emitter.tsVisitor schema (withGenerateOnly value config) = Emitter.tsVisitor schema config.
Proof. reflexivity. Qed.

(** ** The claims of the specification *)

(** C1 (completeness).  When [generateOnly] does not restrict the output
    to enums, [plugin] returns, and its [content] is the newline join of
    the scalars block, one declaration per walked type and the
    introspection declarations.  In a type map with one entry per name,
    every named type, whatever its variant, is walked exactly once, the
    introspection meta-types not at all; the introspection declarations
    come from introspection meta-types only. *)
Theorem plugin_declares_each_type_once
        (newTsVisitor : TsVisitorClass) (schema : GraphQLSchema)
        (documents : list DocumentFile) (config : TypeScriptPluginConfig)
        (extra : nat) (type : GraphQLNamedType) :
  NoDup (map typeName (typeMap schema)) ->
  generateOnlyEnums config = false ->
  In type (typeMap schema) ->
  exists output introspectionDefinitions,
    plugin newTsVisitor (enoughFuel schema + extra) schema documents config = Return output
    /\ content output =
       String.concat Js.LF
         (scalarsDefinition (newTsVisitor schema config)
          :: map (leave (newTsVisitor schema config)) (printSchema schema)
          ++ introspectionDefinitions)
    /\ declarationsOf (typeName type) (printSchema schema) =
       (if isIntrospectionType (typeName type) then 0 else 1)
    /\ (forall declaration, In declaration introspectionDefinitions ->
          exists meta, In meta (typeMap schema)
                       /\ isIntrospectionType (typeName meta) = true
                       /\ declaration = leave (newTsVisitor schema config) meta).
Proof.
  intros Hnames Hmode Hin.
  destruct (includeIntrospectionDefinitions_returns newTsVisitor schema documents config extra)
    as [definitions Hintro].
  eexists. exists definitions.
  split; [apply (plugin_full_output _ _ _ _ _ _ Hmode Hintro)|].
  split; [reflexivity|]. split.
  - rewrite declarationsOf_printSchema.
    destruct (isIntrospectionType (typeName type)); [reflexivity|].
    now apply declarationsOf_unique.
  - intros declaration Hdecl. unfold includeIntrospectionDefinitions in Hintro.
    destruct (collectAllTypes _ schema _) as [types|]; [|discriminate].
    inversion Hintro; subst. apply visitIntrospection_In in Hdecl as [meta [Hmeta [_ ->]]].
    apply printIntrospectionSchema_In in Hmeta as [Hmem Hintrospection].
    now exists meta.
Qed.

Lemma plugin_declares_each_type_once_witness :
  NoDup (map typeName (typeMap Sample.schema))
  /\ generateOnlyEnums Sample.config = false
  /\ In (GraphQLScalarType "Date") (typeMap Sample.schema)
  /\ exists output introspectionDefinitions,
      plugin Emitter.tsVisitor (enoughFuel Sample.schema + 0) Sample.schema
             [Sample.typeNameQuery] Sample.config = Return output
      /\ content output =
         String.concat Js.LF
           (scalarsDefinition (Emitter.tsVisitor Sample.schema Sample.config)
            :: map (leave (Emitter.tsVisitor Sample.schema Sample.config))
                   (printSchema Sample.schema)
            ++ introspectionDefinitions)
      /\ declarationsOf (typeName (GraphQLScalarType "Date")) (printSchema Sample.schema) =
         (if isIntrospectionType (typeName (GraphQLScalarType "Date")) then 0 else 1)
      /\ (forall declaration, In declaration introspectionDefinitions ->
            exists meta, In meta (typeMap Sample.schema)
                         /\ isIntrospectionType (typeName meta) = true
                         /\ declaration
                            = leave (Emitter.tsVisitor Sample.schema Sample.config) meta).
Proof.
  assert (Hnames : NoDup (map typeName (typeMap Sample.schema))).
  { simpl. repeat (constructor; [simpl; intuition discriminate|]). constructor. }
  assert (Hin : In (GraphQLScalarType "Date") (typeMap Sample.schema)).
  { simpl. do 8 right. now left. }
  split; [exact Hnames|]. split; [reflexivity|]. split; [exact Hin|].
  exact (plugin_declares_each_type_once Emitter.tsVisitor Sample.schema
           [Sample.typeNameQuery] Sample.config 0 (GraphQLScalarType "Date")
           Hnames eq_refl Hin).
Defined.

(** C3, as the code has it.  A [generateOnly] that is not empty and whose
    first element is not ['enums'] raises no error: [plugin] returns the
    full output of its normal branch. *)
Theorem plugin_invalid_generateOnly_full_output
        (newTsVisitor : TsVisitorClass) (schema : GraphQLSchema)
        (documents : list DocumentFile) (config : TypeScriptPluginConfig)
        (first : string) (rest : list string) (extra : nat) :
  generateOnly config = Some (first :: rest) ->
  first <> "enums" ->
  exists introspectionDefinitions,
    includeIntrospectionDefinitions newTsVisitor (enoughFuel schema + extra)
                                    schema documents config
    = Some introspectionDefinitions
    /\ plugin newTsVisitor (enoughFuel schema + extra) schema documents config =
       Return {| prepend := getEnumsImports (newTsVisitor schema config)
                            ++ getScalarsImports (newTsVisitor schema config)
                            ++ [getMaybeValue (newTsVisitor schema config)];
                 content := String.concat Js.LF
                              (scalarsDefinition (newTsVisitor schema config)
                               :: map (leave (newTsVisitor schema config))
                                      (printSchema schema)
                               ++ introspectionDefinitions) |}.
Proof.
  intros Hconfig Hfirst.
  assert (Hmode : generateOnlyEnums config = false).
  { destruct (generateOnlyEnums config) eqn:Hmode; [|reflexivity].
    apply generateOnlyEnums_true in Hmode as [rest' Hrest]. congruence. }
  destruct (includeIntrospectionDefinitions_returns newTsVisitor schema documents config extra)
    as [definitions Hintro].
  exists definitions. split; [assumption|].
  apply (plugin_full_output _ _ _ _ _ _ Hmode Hintro).
Qed.

Lemma plugin_invalid_generateOnly_full_output_witness :
  generateOnly Sample.invalidConfig = Some ["types"]
  /\ "types" <> "enums"
  /\ exists introspectionDefinitions,
      includeIntrospectionDefinitions Emitter.tsVisitor (enoughFuel Sample.schema + 0)
                                      Sample.schema [Sample.userQuery] Sample.invalidConfig
      = Some introspectionDefinitions
      /\ plugin Emitter.tsVisitor (enoughFuel Sample.schema + 0) Sample.schema
                [Sample.userQuery] Sample.invalidConfig =
         Return {| prepend :=
                     getEnumsImports (Emitter.tsVisitor Sample.schema Sample.invalidConfig)
                     ++ getScalarsImports (Emitter.tsVisitor Sample.schema Sample.invalidConfig)
                     ++ [getMaybeValue (Emitter.tsVisitor Sample.schema Sample.invalidConfig)];
                   content :=
                     String.concat Js.LF
                       (scalarsDefinition (Emitter.tsVisitor Sample.schema Sample.invalidConfig)
                        :: map (leave (Emitter.tsVisitor Sample.schema Sample.invalidConfig))
                               (printSchema Sample.schema)
                        ++ introspectionDefinitions) |}.
Proof.
  assert (Hfirst : "types" <> "enums") by discriminate.
  split; [reflexivity|]. split; [exact Hfirst|].
  exact (plugin_invalid_generateOnly_full_output Emitter.tsVisitor Sample.schema
           [Sample.userQuery] Sample.invalidConfig "types" [] 0 eq_refl Hfirst).
Defined.

(** C3, as the specification has it, fails: with [generateOnly: ['types']]
    the call does not end in a [ConfigurationError]; it returns, and what
    it returns is the output of the empty configuration. *)
Lemma plugin_invalid_generateOnly_not_rejected :
  plugin Emitter.tsVisitor (enoughFuel Sample.enumSchema) Sample.enumSchema []
         Sample.invalidConfig
  <> Throw ConfigurationError
  /\ plugin Emitter.tsVisitor (enoughFuel Sample.enumSchema) Sample.enumSchema []
            Sample.invalidConfig
     = plugin Emitter.tsVisitor (enoughFuel Sample.enumSchema) Sample.enumSchema []
              Sample.config
  /\ exists output,
      plugin Emitter.tsVisitor (enoughFuel Sample.enumSchema) Sample.enumSchema []
             Sample.invalidConfig = Return output
      /\ prepend output = ["export type Maybe<T> = T | null;"].
Proof.
  split; [vm_compute; discriminate|].
  split; [vm_compute; reflexivity|].
  eexists. split; vm_compute; reflexivity.
Qed.

(** C4 (introspection reachability).  When [__Type] is the one
    introspection type that the fields of the documents have, as for a
    document that selects [__type { name }], the types collected are
    exactly [__Type] and the types reachable from it through the fields
    of object types, and the declarations returned are exactly those of
    the introspection types of the schema among them. *)
Theorem introspection_definitions_reachable_from_Type
        (newTsVisitor : TsVisitorClass) (schema : GraphQLSchema)
        (documents : list DocumentFile) (config : TypeScriptPluginConfig)
        (extra : nat) :
  (exists doc node, In doc documents /\ In node (content_ doc) /\ usesType node "__Type") ->
  (forall doc node type,
      In doc documents -> In node (content_ doc) -> usesType node type ->
      isIntrospectionType type = true -> type = "__Type") ->
  exists typesToInclude definitions,
    collectAllTypes (enoughFuel schema + extra) schema (collectUsedTypes documents)
    = Some typesToInclude
    /\ (forall name, In name typesToInclude <-> reachable schema "__Type" name)
    /\ includeIntrospectionDefinitions newTsVisitor (enoughFuel schema + extra)
                                       schema documents config = Some definitions
    /\ (forall declaration,
          In declaration definitions
          <-> exists type, In type (typeMap schema)
                           /\ isIntrospectionType (typeName type) = true
                           /\ reachable schema "__Type" (typeName type)
                           /\ declaration = leave (newTsVisitor schema config) type).
Proof.
  intros [doc [node [Hdoc [Hnode Huse]]]] Honly.
  assert (Hused : collectUsedTypes documents = ["__Type"]).
  { rewrite collectUsedTypes_flat.
    apply (fold_Field_single "__Type").
    - intros n type Hin. apply in_flat_map in Hin as [d [Hd Hn]]. now apply (Honly d n).
    - reflexivity.
    - exists node. split; [|assumption]. apply in_flat_map. now exists doc. }
  destruct (collectAllTypes_returns schema (collectUsedTypes documents) extra)
    as [types Htypes].
  assert (Hreach : forall name, In name types <-> reachable schema "__Type" name).
  { apply (collectTypes_reachable schema (enoughFuel schema + extra)).
    rewrite Hused in Htypes. unfold collectAllTypes in Htypes.
    now rewrite forEach_single in Htypes. }
  exists types. eexists. split; [assumption|]. split; [assumption|].
  split; [unfold includeIntrospectionDefinitions; now rewrite Htypes|].
  intros declaration. rewrite visitIntrospection_In. split.
  - intros [type [Hin [Hcollected ->]]].
    apply printIntrospectionSchema_In in Hin as [Hmem Hmeta].
    exists type. repeat split; try assumption. now apply Hreach.
  - intros [type [Hmem [Hmeta [Hreachable ->]]]].
    exists type. split; [now apply printIntrospectionSchema_In|].
    split; [now apply Hreach | reflexivity].
Qed.

Lemma introspection_definitions_reachable_from_Type_witness :
  (exists doc node, In doc [Sample.typeNameQuery] /\ In node (content_ doc)
                    /\ usesType node "__Type")
  /\ (forall doc node type,
         In doc [Sample.typeNameQuery] -> In node (content_ doc) -> usesType node type ->
         isIntrospectionType type = true -> type = "__Type")
  /\ exists typesToInclude definitions,
      collectAllTypes (enoughFuel Sample.schema + 0) Sample.schema
                      (collectUsedTypes [Sample.typeNameQuery])
      = Some typesToInclude
      /\ (forall name, In name typesToInclude <-> reachable Sample.schema "__Type" name)
      /\ includeIntrospectionDefinitions Emitter.tsVisitor (enoughFuel Sample.schema + 0)
                                         Sample.schema [Sample.typeNameQuery] Sample.config
         = Some definitions
      /\ (forall declaration,
            In declaration definitions
            <-> exists type, In type (typeMap Sample.schema)
                             /\ isIntrospectionType (typeName type) = true
                             /\ reachable Sample.schema "__Type" (typeName type)
                             /\ declaration
                                = leave (Emitter.tsVisitor Sample.schema Sample.config) type).
Proof.
  assert (Hsome : exists doc node, In doc [Sample.typeNameQuery] /\ In node (content_ doc)
                                   /\ usesType node "__Type").
  { exists Sample.typeNameQuery. eexists. split; [now left|]. split; [now left|].
    eexists. split; reflexivity. }
  assert (Honly : forall doc node type,
             In doc [Sample.typeNameQuery] -> In node (content_ doc) -> usesType node type ->
             isIntrospectionType type = true -> type = "__Type").
  { intros doc node type [<- | []] Hnode [fieldType [Hty <-]].
    destruct Hnode as [<- | [<- | []]]; simpl in Hty; inversion Hty; subst; simpl.
    - reflexivity.
    - discriminate. }
  split; [exact Hsome|]. split; [exact Honly|].
  exact (introspection_definitions_reachable_from_Type Emitter.tsVisitor Sample.schema
           [Sample.typeNameQuery] Sample.config 0 Hsome Honly).
Defined.

(** C5 (no reference, no declaration).  When no field of any document has
    an introspection meta-type, [includeIntrospectionDefinitions] returns
    the empty list. *)
Theorem includeIntrospectionDefinitions_without_reference
        (newTsVisitor : TsVisitorClass) (schema : GraphQLSchema)
        (documents : list DocumentFile) (config : TypeScriptPluginConfig)
        (fuel : nat) :
  (forall doc node type,
      In doc documents -> In node (content_ doc) -> usesType node type ->
      isIntrospectionType type = false) ->
  includeIntrospectionDefinitions newTsVisitor fuel schema documents config = Some [].
Proof.
  intros Hnone. unfold includeIntrospectionDefinitions.
  rewrite collectUsedTypes_flat, fold_Field_skips.
  - unfold collectAllTypes. simpl. now rewrite visitIntrospection_nothing.
  - intros node type Hin. apply in_flat_map in Hin as [doc [Hdoc Hnode]].
    now apply (Hnone doc node).
Qed.

Lemma includeIntrospectionDefinitions_without_reference_witness :
  (forall doc node type,
      In doc [Sample.userQuery] -> In node (content_ doc) -> usesType node type ->
      isIntrospectionType type = false)
  /\ includeIntrospectionDefinitions Emitter.tsVisitor (enoughFuel Sample.schema)
                                     Sample.schema [Sample.userQuery] Sample.config
     = Some [].
Proof.
  assert (Hnone : forall doc node type,
             In doc [Sample.userQuery] -> In node (content_ doc) -> usesType node type ->
             isIntrospectionType type = false).
  { intros doc node type [<- | []] Hnode [fieldType [Hty <-]].
    destruct Hnode as [<- | [<- | []]]; simpl in Hty; inversion Hty; subst; reflexivity. }
  split; [exact Hnone|].
  exact (includeIntrospectionDefinitions_without_reference Emitter.tsVisitor Sample.schema
           [Sample.userQuery] Sample.config (enoughFuel Sample.schema) Hnone).
Defined.

(** C6 (termination).  On every schema, cyclic or not, a call of
    [collectTypes] ends: fuel beyond the number of types of the type map
    is never used up.  A type that is already in the accumulator is not
    entered again and leaves it as it is, and an accumulator without
    duplicates stays without duplicates. *)
Theorem collectTypes_terminates_without_duplicates
        (schema : GraphQLSchema) (typesToInclude : list string) (type : string)
        (extra : nat) :
  NoDup typesToInclude ->
  exists result,
    collectTypes (enoughFuel schema + extra) schema typesToInclude type = Some result
    /\ NoDup result
    /\ incl typesToInclude result
    /\ In type result
    /\ (In type typesToInclude -> result = typesToInclude).
Proof.
  intros Hnd.
  destruct (collectTypes_terminates schema (enoughFuel schema + extra) typesToInclude type)
    as [result H].
  { pose proof (unvisited_bound schema typesToInclude). lia. }
  exists result. split; [assumption|].
  split; [now apply (collectTypes_NoDup schema _ _ _ _ H)|].
  split; [now apply (collectTypes_incl schema _ _ _ _ H)|].
  split; [now apply (collectTypes_closed schema _ _ _ _ H)|].
  intros Hin.
  change (enoughFuel schema + extra) with (S (List.length (typeMap schema) + extra)) in H.
  rewrite collectTypes_noop in H by assumption. congruence.
Qed.

Lemma collectTypes_terminates_without_duplicates_witness :
  NoDup ["String"]
  /\ exists result,
      collectTypes (enoughFuel Sample.schema + 0) Sample.schema ["String"] "__Type"
      = Some result
      /\ NoDup result
      /\ incl ["String"] result
      /\ In "__Type" result
      /\ (In "__Type" ["String"] -> result = ["String"]).
Proof.
  assert (Hnd : NoDup ["String"]) by (repeat constructor; intros []).
  split; [exact Hnd|].
  exact (collectTypes_terminates_without_duplicates Sample.schema ["String"] "__Type" 0 Hnd).
Defined.

(** C7 (newline join), at an input on which the code departs from it.
    For a schema of two enums and [generateOnly: ['enums']], the [content]
    that [plugin] returns is the two declarations with a comma between
    them, which is not their newline join: line 163 wraps the filtered
    array in an array literal, and [join] converts that one element with
    [Array.prototype.toString]. *)
Theorem plugin_generateOnly_enums_joined_by_comma :
  let visitor := Emitter.tsVisitor Sample.enumSchema Sample.enumsConfig in
  let color := leave visitor (GraphQLEnumType "Color" ["RED"; "GREEN"]) in
  let size := leave visitor (GraphQLEnumType "Size" ["SMALL"; "LARGE"]) in
  plugin Emitter.tsVisitor (enoughFuel Sample.enumSchema) Sample.enumSchema []
         Sample.enumsConfig
  = Return {| prepend := []; content := String.concat "," [color; size] |}
  /\ String.concat "," [color; size] <> String.concat Js.LF [color; size].
Proof.
  split; [vm_compute; reflexivity | vm_compute; discriminate].
Qed.

(** C9 (no prepend under [generateOnly]).  Under [generateOnly: ['enums']]
    [plugin] returns with an empty [prepend]: the enum imports, the scalar
    imports and the [Maybe] alias of the normal branch are left out. *)
Theorem plugin_generateOnly_enums_empty_prepend
        (newTsVisitor : TsVisitorClass) (schema : GraphQLSchema)
        (documents : list DocumentFile) (config : TypeScriptPluginConfig)
        (extra : nat) :
  generateOnly config = Some ["enums"] ->
  exists output,
    plugin newTsVisitor (enoughFuel schema + extra) schema documents config = Return output
    /\ prepend output = [].
Proof.
  intros Hconfig.
  assert (Hmode : generateOnlyEnums config = true)
    by (apply generateOnlyEnums_true; now exists []).
  destruct (includeIntrospectionDefinitions_returns newTsVisitor schema documents config extra)
    as [definitions Hintro].
  eexists. split; [apply (plugin_enums_output _ _ _ _ _ _ Hmode Hintro) | reflexivity].
Qed.

Lemma plugin_generateOnly_enums_empty_prepend_witness :
  generateOnly Sample.enumsConfig = Some ["enums"]
  /\ exists output,
      plugin Emitter.tsVisitor (enoughFuel Sample.schema + 0) Sample.schema
             [Sample.userQuery] Sample.enumsConfig = Return output
      /\ prepend output = [].
Proof.
  split; [reflexivity|].
  exact (plugin_generateOnly_enums_empty_prepend Emitter.tsVisitor Sample.schema
           [Sample.userQuery] Sample.enumsConfig 0 eq_refl).
Defined.

(** C10 (empty [generateOnly]).  With [generateOnly: []], and a visitor
    that is the same whether [generateOnly] is empty or unset, [plugin]
    returns the full output of its normal branch, which is what it
    returns when [generateOnly] is unset.  For any configuration, the
    returned [prepend] is empty, as the restricted branch leaves it,
    exactly when [generateOnly] is a non-empty list whose first element is
    ['enums']. *)
Theorem plugin_empty_generateOnly_as_unset
        (newTsVisitor : TsVisitorClass) (schema : GraphQLSchema)
        (documents : list DocumentFile) (config : TypeScriptPluginConfig)
        (extra : nat) :
  generateOnly config = Some [] ->
  newTsVisitor schema (withGenerateOnly None config) = newTsVisitor schema config ->
  (exists introspectionDefinitions,
      includeIntrospectionDefinitions newTsVisitor (enoughFuel schema + extra)
                                      schema documents config
      = Some introspectionDefinitions
      /\ plugin newTsVisitor (enoughFuel schema + extra) schema documents config =
         Return {| prepend := getEnumsImports (newTsVisitor schema config)
                              ++ getScalarsImports (newTsVisitor schema config)
                              ++ [getMaybeValue (newTsVisitor schema config)];
                   content := String.concat Js.LF
                                (scalarsDefinition (newTsVisitor schema config)
                                 :: map (leave (newTsVisitor schema config))
                                        (printSchema schema)
                                 ++ introspectionDefinitions) |})
  /\ plugin newTsVisitor (enoughFuel schema + extra) schema documents config
     = plugin newTsVisitor (enoughFuel schema + extra) schema documents
              (withGenerateOnly None config)
  /\ (forall (other : TypeScriptPluginConfig) (output : PluginOutput),
         plugin newTsVisitor (enoughFuel schema + extra) schema documents other
         = Return output ->
         (prepend output = []
          <-> exists rest, generateOnly other = Some ("enums" :: rest))).
Proof.
  intros Hconfig Hsame.
  assert (Hmode : generateOnlyEnums config = false)
    by (unfold generateOnlyEnums; now rewrite Hconfig).
  destruct (includeIntrospectionDefinitions_returns newTsVisitor schema documents config extra)
    as [definitions Hintro].
  split; [|split].
  - exists definitions. split; [assumption|].
    apply (plugin_full_output _ _ _ _ _ _ Hmode Hintro).
  - unfold plugin, includeIntrospectionDefinitions, TsIntrospectionVisitor.
    rewrite Hsame. unfold generateOnlyEnums. rewrite Hconfig. reflexivity.
  - intros other output Hrun. rewrite <- generateOnlyEnums_true.
    destruct (includeIntrospectionDefinitions_returns newTsVisitor schema documents other extra)
      as [definitions' Hintro'].
    destruct (generateOnlyEnums other) eqn:Hother.
    + rewrite (plugin_enums_output _ _ _ _ _ _ Hother Hintro') in Hrun.
      inversion Hrun. simpl. now split.
    + rewrite (plugin_full_output _ _ _ _ _ _ Hother Hintro') in Hrun.
      inversion Hrun. simpl. split; [|discriminate].
      intros Hnil. apply app_eq_nil in Hnil as [_ Hnil].
      apply app_eq_nil in Hnil as [_ Hnil]. discriminate.
Qed.

Lemma plugin_empty_generateOnly_as_unset_witness :
  generateOnly Sample.emptyListConfig = Some []
  /\ Emitter.tsVisitor Sample.schema (withGenerateOnly None Sample.emptyListConfig)
     = Emitter.tsVisitor Sample.schema Sample.emptyListConfig
  /\ plugin Emitter.tsVisitor (enoughFuel Sample.schema + 0) Sample.schema
            [Sample.typeNameQuery] Sample.emptyListConfig
     = plugin Emitter.tsVisitor (enoughFuel Sample.schema + 0) Sample.schema
              [Sample.typeNameQuery] (withGenerateOnly None Sample.emptyListConfig).
Proof.
  split; [reflexivity|]. split; [reflexivity|].
  exact (proj1 (proj2 (plugin_empty_generateOnly_as_unset Emitter.tsVisitor Sample.schema
                         [Sample.typeNameQuery] Sample.emptyListConfig 0
                         eq_refl eq_refl))).
Defined.

(** * Further properties of the code *)

(** ** The [Field] callback (lines 176-182) *)

Lemma Field_In (usedTypes : list string) (node : FieldNode) (type : string) :
  In type (Field usedTypes node)
  <-> In type usedTypes \/ (isIntrospectionType type = true /\ usesType node type).
Proof.
  unfold Field, usesType. destruct (getType_ node) as [fieldType|].
  - destruct (isIntrospectionType (getNamedType fieldType)) eqn:Hmeta; simpl.
    + destruct (Js.arrayIncludes usedTypes (getNamedType fieldType)) eqn:Hin; simpl.
      * apply arrayIncludes_true in Hin. split; [now left|].
        intros [Hused | [_ [ft [Hft <-]]]]; [assumption|]. now inversion Hft; subst.
      * rewrite in_app_iff. simpl. split.
        -- intros [Hused | [<- | []]]; [now left|]. right. split; [assumption|].
           now exists fieldType.
        -- intros [Hused | [_ [ft [Hft <-]]]]; [now left|]. right. left.
           now inversion Hft.
    + split; [now left|].
      intros [Hused | [Htype [ft [Hft <-]]]]; [assumption|].
      inversion Hft; subst. congruence.
  - split; [now left|]. intros [Hused | [_ [ft [Hft _]]]]; [assumption | discriminate].
Qed.

Lemma Field_NoDup (usedTypes : list string) (node : FieldNode) :
  NoDup usedTypes -> NoDup (Field usedTypes node).
Proof.
  intros Hnd. unfold Field. destruct (getType_ node) as [fieldType|]; [|assumption].
  destruct (isIntrospectionType (getNamedType fieldType)); simpl; [|assumption].
  destruct (Js.arrayIncludes usedTypes (getNamedType fieldType)) eqn:Hin; simpl;
    [assumption|].
  apply arrayIncludes_false in Hin.
  apply NoDup_app; [assumption | repeat constructor; intros [] | ].
  intros x Hx [<- | []]. now apply Hin.
Qed.

Lemma fold_Field_In (nodes : list FieldNode) (usedTypes : list string) (type : string) :
  In type (fold_left Field nodes usedTypes)
  <-> In type usedTypes
      \/ (isIntrospectionType type = true
          /\ exists node, In node nodes /\ usesType node type).
Proof.
  revert usedTypes. induction nodes as [|node rest IH]; intros usedTypes; simpl.
  - split; [now left | intros [H | [_ [node [[] _]]]]; assumption].
  - rewrite IH, Field_In. split.
    + intros [[Hused | [Hmeta Huse]] | [Hmeta [n [Hn Huse]]]].
      * now left.
      * right. split; [assumption|]. exists node. split; [now left | assumption].
      * right. split; [assumption|]. exists n. split; [now right | assumption].
    + intros [Hused | [Hmeta [n [[<- | Hn] Huse]]]].
      * left. now left.
      * left. right. now split.
      * right. split; [assumption|]. now exists n.
Qed.

Lemma fold_Field_NoDup (nodes : list FieldNode) (usedTypes : list string) :
  NoDup usedTypes -> NoDup (fold_left Field nodes usedTypes).
Proof.
  revert usedTypes. induction nodes as [|node rest IH]; intros usedTypes Hnd; simpl.
  - assumption.
  - now apply IH, Field_NoDup.
Qed.

Lemma collectUsedTypes_In (documents : list DocumentFile) (type : string) :
  In type (collectUsedTypes documents)
  <-> isIntrospectionType type = true /\ usedBy documents type.
Proof.
  rewrite collectUsedTypes_flat, fold_Field_In. unfold usedBy. split.
  - intros [[] | [Hmeta [node [Hin Huse]]]]. split; [assumption|].
    apply in_flat_map in Hin as [doc [Hdoc Hnode]]. now exists doc, node.
  - intros [Hmeta [doc [node [Hdoc [Hnode Huse]]]]]. right. split; [assumption|].
    exists node. split; [|assumption]. apply in_flat_map. now exists doc.
Qed.

(** X1.  The types recorded from the documents are exactly the
    introspection types that some [Field] node of some document has as
    its named type, each of them once. *)
Theorem collectUsedTypes_characterised (documents : list DocumentFile) :
  NoDup (collectUsedTypes documents)
  /\ forall type,
      In type (collectUsedTypes documents)
      <-> isIntrospectionType type = true /\ usedBy documents type.
Proof.
  split.
  - rewrite collectUsedTypes_flat. apply fold_Field_NoDup. constructor.
  - apply collectUsedTypes_In.
Qed.

(** ** [collectTypes] with an accumulator that is not empty *)

Section CollectTypesFurther.

Variable schema : GraphQLSchema.

Lemma collectTypes_appends :
  forall fuel before type after,
    collectTypes fuel schema before type = Some after ->
    exists added, after = before ++ added.
Proof.
  induction fuel as [|fuel IH]; intros before type after H; [discriminate|].
  rewrite collectTypes_unfold in H.
  destruct (Js.arrayIncludes before type).
  - inversion H. exists []. now rewrite app_nil_r.
  - destruct (isObjectType schema type).
    + assert (Hloop : exists added, after = (before ++ [type]) ++ added).
      { revert H.
        apply (forEach_preserves _ (fun a b : list string => exists added, b = a ++ added)).
        - intros st. exists []. now rewrite app_nil_r.
        - intros a b c [ab ->] [bc ->]. exists (ab ++ bc). now rewrite app_assoc.
        - intros st x st'. apply IH. }
      destruct Hloop as [added ->]. exists ([type] ++ added). now rewrite app_assoc.
    + inversion H. now exists [type].
Qed.

(** X2.  A call of [collectTypes] only pushes: the accumulator it is
    given is kept as a prefix of the result, nothing is added when the
    type is already there, and otherwise the type itself is the first
    addition. *)
Theorem collectTypes_only_pushes
        (fuel : nat) (typesToInclude : list string) (type : string)
        (result : list string) :
  collectTypes fuel schema typesToInclude type = Some result ->
  exists added,
    result = typesToInclude ++ added
    /\ (In type typesToInclude -> added = [])
    /\ (~ In type typesToInclude -> exists more, added = type :: more).
Proof.
  intros H. destruct fuel as [|fuel]; [discriminate|].
  rewrite collectTypes_unfold in H.
  destruct (Js.arrayIncludes typesToInclude type) eqn:Hin.
  - inversion H; subst. exists []. rewrite app_nil_r.
    apply arrayIncludes_true in Hin. split; [reflexivity|]. split; [reflexivity|].
    intros Hout. contradiction.
  - apply arrayIncludes_false in Hin.
    assert (Hloop : exists more, result = (typesToInclude ++ [type]) ++ more).
    { destruct (isObjectType schema type).
      - revert H.
        apply (forEach_preserves _ (fun a b : list string => exists added, b = a ++ added)).
        + intros st. exists []. now rewrite app_nil_r.
        + intros a b c [ab ->] [bc ->]. exists (ab ++ bc). now rewrite app_assoc.
        + intros st x st'. apply collectTypes_appends.
      - inversion H. exists []. now rewrite app_nil_r. }
    destruct Hloop as [more ->]. exists (type :: more).
    split; [now rewrite <- app_assoc|].
    split; [intros Hpresent; contradiction | intros _; now exists more].
Qed.

(** *** What a call adds *)

Lemma avoiding_fresh (present : list string) (origin target : string) :
  reachableAvoiding schema present origin target ->
  ~ In origin present /\ ~ In target present.
Proof.
  induction 1 as [Hfresh | via target Hvia [IHorigin IHvia] Hstep Hfresh]; now split.
Qed.

Lemma avoiding_mono (present present' : list string) (origin target : string) :
  incl present present' ->
  reachableAvoiding schema present' origin target ->
  reachableAvoiding schema present origin target.
Proof.
  intros Hincl. induction 1 as [Hfresh | via target Hvia IH Hstep Hfresh].
  - apply avoiding_origin. intros Hin. now apply Hfresh, Hincl.
  - apply avoiding_field with via; try assumption. intros Hin. now apply Hfresh, Hincl.
Qed.

Lemma avoiding_trans (present : list string) (origin via target : string) :
  reachableAvoiding schema present origin via ->
  reachableAvoiding schema present via target ->
  reachableAvoiding schema present origin target.
Proof.
  intros Hov. induction 1 as [Hfresh | mid target Hvm IH Hstep Hfresh]; [assumption|].
  now apply avoiding_field with mid.
Qed.

Lemma forEach_collect_avoiding (fuel : nat) :
  (forall before type after,
      collectTypes fuel schema before type = Some after ->
      forall x, In x after -> In x before \/ reachableAvoiding schema before type x) ->
  forall types before after,
    Js.forEach (collectTypes fuel schema) types before = Some after ->
    forall x, In x after ->
              In x before
              \/ exists type, In type types /\ reachableAvoiding schema before type x.
Proof.
  intros Hcall. induction types as [|type rest IH]; intros before after H x Hx; simpl in H.
  - inversion H; subst. now left.
  - destruct (collectTypes fuel schema before type) as [mid|] eqn:Hmid; [|discriminate].
    destruct (IH _ _ H x Hx) as [Hm | [type' [Hin Hreach]]].
    + destruct (Hcall _ _ _ Hmid x Hm) as [Hb | Hreach]; [now left|].
      right. exists type. split; [now left | assumption].
    + right. exists type'. split; [now right|].
      apply avoiding_mono with mid; [|assumption].
      now apply (collectTypes_incl schema _ _ _ _ Hmid).
Qed.

Lemma collectTypes_avoiding :
  forall fuel before type after,
    collectTypes fuel schema before type = Some after ->
    forall x, In x after -> In x before \/ reachableAvoiding schema before type x.
Proof.
  induction fuel as [|fuel IH]; intros before type after H x Hx; [discriminate|].
  rewrite collectTypes_unfold in H.
  destruct (Js.arrayIncludes before type) eqn:Hin.
  - inversion H; subst. now left.
  - apply arrayIncludes_false in Hin.
    assert (Hnew : In x (before ++ [type]) ->
                   In x before \/ reachableAvoiding schema before type x).
    { intros Hb. apply in_app_or in Hb as [Hb | [<- | []]]; [now left|].
      right. now apply avoiding_origin. }
    destruct (isObjectType schema type) eqn:Hobj.
    + destruct (forEach_collect_avoiding fuel IH _ _ _ H x Hx)
        as [Hb | [target [Hin' Hreach]]]; [now apply Hnew|].
      right. apply avoiding_mono with (present := before) in Hreach;
        [|apply incl_appl, incl_refl].
      apply avoiding_trans with target; [|assumption].
      apply avoiding_field with type.
      * now apply avoiding_origin.
      * now split.
      * now apply (avoiding_fresh _ _ _ Hreach).
    + inversion H; subst. now apply Hnew.
Qed.

(** X3.  On every schema and for every accumulator, a call of
    [collectTypes] ends, and its result holds the accumulator together
    with exactly the types that are reached from the argument along
    fields of object types without passing through a type that was
    already in the accumulator. *)
Theorem collectTypes_adds_what_is_newly_reachable
        (typesToInclude : list string) (type : string) (extra : nat) :
  exists result,
    collectTypes (enoughFuel schema + extra) schema typesToInclude type = Some result
    /\ forall name,
        In name result
        <-> In name typesToInclude
            \/ reachableAvoiding schema typesToInclude type name.
Proof.
  destruct (collectTypes_terminates schema (enoughFuel schema + extra) typesToInclude type)
    as [result H].
  { pose proof (unvisited_bound schema typesToInclude). lia. }
  exists result. split; [assumption|]. intros name. split.
  - now apply (collectTypes_avoiding _ _ _ _ H).
  - destruct (collectTypes_closed schema _ _ _ _ H) as [Htype Hclosed].
    intros [Hpresent | Hreach].
    + now apply (collectTypes_incl schema _ _ _ _ H).
    + induction Hreach as [Hfresh | via target Hvia IH Hstep Hfresh]; [assumption|].
      apply (Hclosed via IH); [|assumption]. now apply (avoiding_fresh _ _ _ Hvia).
Qed.

End CollectTypesFurther.

Lemma collectTypes_only_pushes_witness :
  collectTypes 20 Sample.schema ["String"] "__Type"
  = Some ["String"; "__Type"; "__TypeKind"; "__Field"; "__InputValue"; "Boolean";
          "__EnumValue"]
  /\ exists added,
      ["String"; "__Type"; "__TypeKind"; "__Field"; "__InputValue"; "Boolean";
       "__EnumValue"] = ["String"] ++ added
      /\ (In "__Type" ["String"] -> added = [])
      /\ (~ In "__Type" ["String"] -> exists more, added = "__Type" :: more).
Proof.
  split; [reflexivity|].
  exact (collectTypes_only_pushes Sample.schema 20 ["String"] "__Type" _ eq_refl).
Defined.

(** ** The loop over the used types (lines 187-191) *)

Lemma collectAllTypes_members
      (schema : GraphQLSchema) (usedTypes : list string) (fuel : nat)
      (typesToInclude : list string) :
  collectAllTypes fuel schema usedTypes = Some typesToInclude ->
  NoDup typesToInclude
  /\ incl usedTypes typesToInclude
  /\ forall name,
      In name typesToInclude
      <-> exists used, In used usedTypes /\ reachable schema used name.
Proof.
  intros H. unfold collectAllTypes in H.
  destruct (forEach_collect_closed schema _ (collectTypes_closed schema _) _ _ _ H)
    as [Hused Hclosed].
  split; [|split; [assumption|]].
  - revert H. generalize (NoDup_nil string). generalize (@nil string).
    intros start Hstart H. revert Hstart. revert H.
    apply (forEach_preserves _ (fun a b : list string => NoDup a -> NoDup b)).
    + trivial.
    + intros a b c Hab Hbc Ha. auto.
    + intros st x st'. apply collectTypes_NoDup.
  - intros name. split.
    + intros Hin.
      destruct (forEach_collect_sound schema _ (collectTypes_sound schema _) _ _ _ H name Hin)
        as [[] | Hreach]. assumption.
    + intros [used [Hin Hreach]].
      induction Hreach as [|via target Hvia IH Hstep]; [now apply Hused|].
      apply (Hclosed via IH); [intros [] | assumption].
Qed.

(** X4.  For every schema and every array of used types, the loop of
    lines 189-191 ends, and [typesToInclude] then holds, each once,
    exactly the types reachable from some used type through fields of
    object types; the used types themselves are among them. *)
Theorem collectAllTypes_reachable_from_used
        (schema : GraphQLSchema) (usedTypes : list string) (extra : nat) :
  exists typesToInclude,
    collectAllTypes (enoughFuel schema + extra) schema usedTypes = Some typesToInclude
    /\ NoDup typesToInclude
    /\ incl usedTypes typesToInclude
    /\ forall name,
        In name typesToInclude
        <-> exists used, In used usedTypes /\ reachable schema used name.
Proof.
  destruct (collectAllTypes_returns schema usedTypes extra) as [result H].
  exists result. split; [assumption|]. now apply collectAllTypes_members with (1 := H).
Qed.

(** X5.  Which types end up in [typesToInclude] depends on the documents
    only through the introspection types their fields use: two arrays of
    documents that use the same ones, in whatever order and however
    often, lead to the same members. *)
Theorem typesToInclude_same_for_same_used_types
        (schema : GraphQLSchema) (documents documents' : list DocumentFile)
        (extra : nat) :
  (forall type, isIntrospectionType type = true ->
                (usedBy documents type <-> usedBy documents' type)) ->
  exists typesToInclude typesToInclude',
    collectAllTypes (enoughFuel schema + extra) schema (collectUsedTypes documents)
    = Some typesToInclude
    /\ collectAllTypes (enoughFuel schema + extra) schema (collectUsedTypes documents')
       = Some typesToInclude'
    /\ forall name, In name typesToInclude <-> In name typesToInclude'.
Proof.
  intros Hsame.
  destruct (collectAllTypes_returns schema (collectUsedTypes documents) extra) as [r H].
  destruct (collectAllTypes_returns schema (collectUsedTypes documents') extra) as [r' H'].
  exists r, r'. split; [assumption|]. split; [assumption|].
  destruct (collectAllTypes_members _ _ _ _ H) as [_ [_ Hr]].
  destruct (collectAllTypes_members _ _ _ _ H') as [_ [_ Hr']].
  assert (Hswap : forall d d' : list DocumentFile,
             (forall type, isIntrospectionType type = true ->
                           (usedBy d type <-> usedBy d' type)) ->
             forall used, In used (collectUsedTypes d) -> In used (collectUsedTypes d')).
  { intros d d' Hdd used Hused. apply collectUsedTypes_In in Hused as [Hmeta Hby].
    apply collectUsedTypes_In. split; [assumption | now apply Hdd]. }
  intros name. rewrite Hr, Hr'. split; intros [used [Hused Hreach]]; exists used;
    (split; [|assumption]).
  - now apply (Hswap documents documents').
  - apply (Hswap documents' documents); [|assumption].
    intros type Hmeta. symmetry. now apply Hsame.
Qed.

Lemma typesToInclude_same_for_same_used_types_witness :
  (forall type, isIntrospectionType type = true ->
                (usedBy [Sample.typeNameQuery; Sample.userQuery] type
                 <-> usedBy [Sample.userQuery; Sample.typeNameQuery; Sample.typeNameQuery]
                            type))
  /\ exists typesToInclude typesToInclude',
      collectAllTypes (enoughFuel Sample.schema + 0) Sample.schema
                      (collectUsedTypes [Sample.typeNameQuery; Sample.userQuery])
      = Some typesToInclude
      /\ collectAllTypes (enoughFuel Sample.schema + 0) Sample.schema
                         (collectUsedTypes
                            [Sample.userQuery; Sample.typeNameQuery; Sample.typeNameQuery])
         = Some typesToInclude'
      /\ forall name, In name typesToInclude <-> In name typesToInclude'.
Proof.
  assert (Hsame : forall type, isIntrospectionType type = true ->
             (usedBy [Sample.typeNameQuery; Sample.userQuery] type
              <-> usedBy [Sample.userQuery; Sample.typeNameQuery; Sample.typeNameQuery]
                         type)).
  { intros type _. unfold usedBy.
    split; intros [doc [node [Hdoc Hrest]]]; exists doc, node;
      (split; [simpl in *; tauto | exact Hrest]). }
  split; [exact Hsame|].
  exact (typesToInclude_same_for_same_used_types Sample.schema
           [Sample.typeNameQuery; Sample.userQuery]
           [Sample.userQuery; Sample.typeNameQuery; Sample.typeNameQuery] 0 Hsame).
Defined.

(** ** The two returns of [plugin] *)

(** X6.  Under [generateOnly] with ['enums'] first, the documents have no
    effect on what [plugin] returns: the introspection definitions are
    computed on line 157 and not used by the return of lines 161-164. *)
Theorem plugin_generateOnly_ignores_documents
        (newTsVisitor : TsVisitorClass) (schema : GraphQLSchema)
        (documents documents' : list DocumentFile) (config : TypeScriptPluginConfig)
        (rest : list string) (extra : nat) :
  generateOnly config = Some ("enums" :: rest) ->
  plugin newTsVisitor (enoughFuel schema + extra) schema documents config
  = plugin newTsVisitor (enoughFuel schema + extra) schema documents' config.
Proof.
  intros Hconfig.
  assert (Hmode : generateOnlyEnums config = true)
    by (apply generateOnlyEnums_true; now exists rest).
  destruct (includeIntrospectionDefinitions_returns newTsVisitor schema documents config extra)
    as [definitions Hintro].
  destruct (includeIntrospectionDefinitions_returns newTsVisitor schema documents' config extra)
    as [definitions' Hintro'].
  rewrite (plugin_enums_output _ _ _ _ _ _ Hmode Hintro).
  now rewrite (plugin_enums_output _ _ _ _ _ _ Hmode Hintro').
Qed.

Lemma plugin_generateOnly_ignores_documents_witness :
  generateOnly Sample.enumsConfig = Some ["enums"]
  /\ plugin Emitter.tsVisitor (enoughFuel Sample.schema + 0) Sample.schema
            [Sample.typeNameQuery] Sample.enumsConfig
     = plugin Emitter.tsVisitor (enoughFuel Sample.schema + 0) Sample.schema
              [] Sample.enumsConfig.
Proof.
  split; [reflexivity|].
  exact (plugin_generateOnly_ignores_documents Emitter.tsVisitor Sample.schema
           [Sample.typeNameQuery] [] Sample.enumsConfig [] 0 eq_refl).
Defined.

(** X7.  Documents none of whose fields has an introspection type leave
    the output as it is without any document, in both branches and
    whatever the fuel. *)
Theorem plugin_documents_without_introspection
        (newTsVisitor : TsVisitorClass) (schema : GraphQLSchema)
        (documents : list DocumentFile) (config : TypeScriptPluginConfig)
        (fuel : nat) :
  (forall type, usedBy documents type -> isIntrospectionType type = false) ->
  plugin newTsVisitor fuel schema documents config
  = plugin newTsVisitor fuel schema [] config.
Proof.
  intros Hnone. unfold plugin, includeIntrospectionDefinitions.
  replace (collectUsedTypes documents) with (collectUsedTypes []); [reflexivity|].
  symmetry. rewrite collectUsedTypes_flat. apply fold_Field_skips.
  intros node type Hin Huse. apply in_flat_map in Hin as [doc [Hdoc Hnode]].
  apply Hnone. now exists doc, node.
Qed.

Lemma plugin_documents_without_introspection_witness :
  (forall type, usedBy [Sample.userQuery] type -> isIntrospectionType type = false)
  /\ plugin Emitter.tsVisitor 0 Sample.schema [Sample.userQuery] Sample.config
     = plugin Emitter.tsVisitor 0 Sample.schema [] Sample.config
  /\ plugin Emitter.tsVisitor 30 Sample.schema [Sample.userQuery] Sample.config
     = plugin Emitter.tsVisitor 30 Sample.schema [] Sample.config.
Proof.
  assert (Hnone : forall type, usedBy [Sample.userQuery] type ->
                               isIntrospectionType type = false).
  { intros type [doc [node [[<- | []] [Hnode [fieldType [Hty <-]]]]]].
    destruct Hnode as [<- | [<- | []]]; simpl in Hty; inversion Hty; subst; reflexivity. }
  split; [exact Hnone|]. split.
  - exact (plugin_documents_without_introspection Emitter.tsVisitor Sample.schema
             [Sample.userQuery] Sample.config 0 Hnone).
  - exact (plugin_documents_without_introspection Emitter.tsVisitor Sample.schema
             [Sample.userQuery] Sample.config 30 Hnone).
Defined.

(** X8.  Whenever [generateOnly] is a list that starts with ['enums'],
    whatever follows, [plugin] returns an empty [prepend] and, as
    [content], the definitions of the walk that contain [export enum], in
    the order of the walk and with a comma, not the line feed given to
    [join], between one and the next. *)
Theorem plugin_generateOnly_output
        (newTsVisitor : TsVisitorClass) (schema : GraphQLSchema)
        (documents : list DocumentFile) (config : TypeScriptPluginConfig)
        (rest : list string) (extra : nat) :
  generateOnly config = Some ("enums" :: rest) ->
  plugin newTsVisitor (enoughFuel schema + extra) schema documents config =
  Return {| prepend := [];
            content :=
              String.concat ","
                (filter (fun d => Js.includes d "export enum")
                        (map (leave (newTsVisitor schema config)) (printSchema schema))) |}.
Proof.
  intros Hconfig.
  assert (Hmode : generateOnlyEnums config = true)
    by (apply generateOnlyEnums_true; now exists rest).
  destruct (includeIntrospectionDefinitions_returns newTsVisitor schema documents config extra)
    as [definitions Hintro].
  apply (plugin_enums_output _ _ _ _ _ _ Hmode Hintro).
Qed.

Lemma plugin_generateOnly_output_witness :
  generateOnly (withGenerateOnly (Some ["enums"; "types"]) Sample.config)
  = Some ["enums"; "types"]
  /\ plugin Emitter.tsVisitor (enoughFuel Sample.schema + 0) Sample.schema
            [Sample.typeNameQuery] (withGenerateOnly (Some ["enums"; "types"]) Sample.config) =
     Return {| prepend := [];
               content :=
                 String.concat ","
                   (filter (fun d => Js.includes d "export enum")
                      (map (leave (Emitter.tsVisitor Sample.schema
                                     (withGenerateOnly (Some ["enums"; "types"])
                                                       Sample.config)))
                           (printSchema Sample.schema))) |}.
Proof.
  split; [reflexivity|].
  exact (plugin_generateOnly_output Emitter.tsVisitor Sample.schema
           [Sample.typeNameQuery] (withGenerateOnly (Some ["enums"; "types"]) Sample.config)
           ["types"] 0 eq_refl).
Defined.

(** X9.  Under [generateOnly] with ['enums'] first, when no definition of
    the walk contains the text [export enum] (as when the visitor writes
    its enums without the [export] modifier), [plugin] returns the empty
    string as [content]. *)
Theorem plugin_generateOnly_without_marker
        (newTsVisitor : TsVisitorClass) (schema : GraphQLSchema)
        (documents : list DocumentFile) (config : TypeScriptPluginConfig)
        (rest : list string) (extra : nat) :
  generateOnly config = Some ("enums" :: rest) ->
  (forall type, In type (typeMap schema) ->
                isIntrospectionType (typeName type) = false ->
                Js.includes (leave (newTsVisitor schema config) type) "export enum" = false) ->
  plugin newTsVisitor (enoughFuel schema + extra) schema documents config =
  Return {| prepend := []; content := "" |}.
Proof.
  intros Hconfig Hnone.
  assert (Hmode : generateOnlyEnums config = true)
    by (apply generateOnlyEnums_true; now exists rest).
  destruct (includeIntrospectionDefinitions_returns newTsVisitor schema documents config extra)
    as [definitions Hintro].
  rewrite (plugin_enums_output _ _ _ _ _ _ Hmode Hintro).
  rewrite filter_map_commute.
  replace (filter _ (printSchema schema)) with (@nil GraphQLNamedType); [reflexivity|].
  symmetry.
  destruct (filter _ (printSchema schema)) as [|type others] eqn:Hfilter; [reflexivity|].
  assert (Hin : In type (filter (fun x => Js.includes (leave (newTsVisitor schema config) x)
                                                      "export enum")
                                (printSchema schema)))
    by (rewrite Hfilter; now left).
  apply filter_In in Hin as [Hwalked Htext].
  apply printSchema_In in Hwalked as [Hmem Hmeta].
  rewrite (Hnone type Hmem Hmeta) in Htext. discriminate.
Qed.

Lemma plugin_generateOnly_without_marker_witness :
  generateOnly Sample.noExportEnumsConfig = Some ["enums"]
  /\ plugin Emitter.tsVisitor (enoughFuel Sample.schema + 0) Sample.schema
            [] Sample.noExportEnumsConfig
     = Return {| prepend := []; content := "" |}.
Proof.
  split; [reflexivity|].
  apply (plugin_generateOnly_without_marker Emitter.tsVisitor Sample.schema
           [] Sample.noExportEnumsConfig [] 0 eq_refl).
  intros type Hin. simpl in Hin.
  repeat (destruct Hin as [<- | Hin];
          [vm_compute; first [reflexivity | intros H; exact H | intros _; reflexivity]|]).
  destruct Hin.
Defined.

(** ** The test of line 163 *)

Lemma prefix_app (search s : string) :
  String.prefix search s = true <-> exists after, s = (search ++ after)%string.
Proof.
  revert s. induction search as [|c search IH]; intros s.
  - split; [intros _; now exists s | intros _; now destruct s].
  - destruct s as [|c' s]; simpl.
    + split; [discriminate | intros [after H]; discriminate].
    + destruct (Ascii.ascii_dec c c') as [<- | Hne].
      * rewrite IH. split; intros [after H]; exists after.
        -- now rewrite H.
        -- now inversion H.
      * split; [discriminate|]. intros [after H]. exfalso. apply Hne. now inversion H.
Qed.

Lemma includes_unfold (s search : string) :
  Js.includes s search
  = (String.prefix search s
     || match s with
        | EmptyString => false
        | String _ rest => Js.includes rest search
        end).
Proof. destruct s; reflexivity. Qed.

(** X10.  The test [d.includes('export enum')] of line 163, for any text
    in place of ['export enum'], holds exactly of the strings in which
    that text occurs: those that are some string, then the text, then
    some string. *)
Theorem includes_occurrence (s search : string) :
  Js.includes s search = true
  <-> exists before after, s = (before ++ search ++ after)%string.
Proof.
  split.
  - induction s as [|c s IH]; rewrite includes_unfold; intros H;
      apply orb_true_iff in H as [H | H].
    + apply prefix_app in H as [after H]. now exists EmptyString, after.
    + discriminate.
    + apply prefix_app in H as [after H]. now exists EmptyString, after.
    + destruct (IH H) as [before [after Heq]].
      exists (String c before), after. simpl. now rewrite Heq.
  - intros [before [after ->]]. induction before as [|c before IH];
      rewrite includes_unfold; apply orb_true_iff.
    + left. apply prefix_app. now exists after.
    + right. exact IH.
Qed.

(** ** Types that are not objects (lines 196-197 and 205) *)

Lemma forEach_cons {A S : Type} (body : S -> A -> option S)
      (x : A) (rest : list A) (state : S) :
  Js.forEach body (x :: rest) state
  = match body state x with
    | Some state' => Js.forEach body rest state'
    | None => None
    end.
Proof. reflexivity. Qed.

Lemma forEach_collect_leaves (schema : GraphQLSchema) (fuel : nat) :
  forall types before,
    NoDup (before ++ types) ->
    (forall type, In type types -> isObjectType schema type = false) ->
    Js.forEach (collectTypes (S fuel) schema) types before = Some (before ++ types).
Proof.
  induction types as [|type rest IH]; intros before Hnd Hleaf.
  - simpl. now rewrite app_nil_r.
  - rewrite forEach_cons, collectTypes_unfold.
    replace (Js.arrayIncludes before type) with false.
    + rewrite (Hleaf type (or_introl eq_refl)).
      replace (before ++ type :: rest) with ((before ++ [type]) ++ rest)
        by (now rewrite <- app_assoc).
      apply IH.
      * now rewrite <- app_assoc.
      * intros t Ht. apply Hleaf. now right.
    + symmetry. apply arrayIncludes_false. intros Hin.
      apply NoDup_remove_2 in Hnd. apply Hnd, in_or_app. now left.
Qed.

(** X11.  Used types that are not object types (enums, scalars,
    interfaces, unions, or names the schema does not know) are included
    but not expanded: when none of the used types is an object type,
    [typesToInclude] is the array of used types itself, and the types of
    the fields of an interface among them are not added. *)
Theorem collectAllTypes_does_not_expand_leaves
        (schema : GraphQLSchema) (usedTypes : list string) (fuel : nat) :
  NoDup usedTypes ->
  (forall type, In type usedTypes -> isObjectType schema type = false) ->
  collectAllTypes (S fuel) schema usedTypes = Some usedTypes.
Proof.
  intros Hnd Hleaf. unfold collectAllTypes.
  now rewrite (forEach_collect_leaves schema fuel usedTypes []).
Qed.

Lemma collectAllTypes_does_not_expand_leaves_witness :
  NoDup ["Node"; "__TypeKind"; "SearchResult"; "Unknown"]
  /\ (forall type, In type ["Node"; "__TypeKind"; "SearchResult"; "Unknown"] ->
                   isObjectType Sample.schema type = false)
  /\ collectAllTypes 1 Sample.schema ["Node"; "__TypeKind"; "SearchResult"; "Unknown"]
     = Some ["Node"; "__TypeKind"; "SearchResult"; "Unknown"].
Proof.
  assert (Hnd : NoDup ["Node"; "__TypeKind"; "SearchResult"; "Unknown"]).
  { repeat (constructor; [simpl; intuition discriminate|]). constructor. }
  assert (Hleaf : forall type, In type ["Node"; "__TypeKind"; "SearchResult"; "Unknown"] ->
                               isObjectType Sample.schema type = false).
  { intros type Hin. simpl in Hin.
    repeat (destruct Hin as [<- | Hin]; [reflexivity|]). destruct Hin. }
  split; [exact Hnd|]. split; [exact Hleaf|].
  exact (collectAllTypes_does_not_expand_leaves Sample.schema
           ["Node"; "__TypeKind"; "SearchResult"; "Unknown"] 0 Hnd Hleaf).
Defined.

(** * Claims C2, C4 and C8 *)


(** C4, as the specification has it, fails: the documents may refer to
    [__Type.name] without any field of type [__Type].  For
    [fragment F on __Type { name }] the one field has the type [String];
    no introspection type other than [__Type] is involved, nothing is
    recorded, and the list returned is empty, although [__Type] is an
    introspection type of the schema and is reachable from itself. *)
Lemma fragment_on_Type_includes_nothing :
  (forall doc node type,
      In doc [Sample.typeFragment] -> In node (content_ doc) -> usesType node type ->
      isIntrospectionType type = true -> type = "__Type")
  /\ includeIntrospectionDefinitions Emitter.tsVisitor (enoughFuel Sample.schema)
                                     Sample.schema [Sample.typeFragment] Sample.config
     = Some []
  /\ In Sample.metaType (typeMap Sample.schema)
  /\ isIntrospectionType (typeName Sample.metaType) = true
  /\ reachable Sample.schema "__Type" (typeName Sample.metaType)
  /\ ~ (forall declaration,
           In declaration []
           <-> exists type, In type (typeMap Sample.schema)
                            /\ isIntrospectionType (typeName type) = true
                            /\ reachable Sample.schema "__Type" (typeName type)
                            /\ declaration
                               = leave (Emitter.tsVisitor Sample.schema Sample.config) type).
Proof.
  assert (Hmem : In Sample.metaType (typeMap Sample.schema)).
  { simpl. do 15 right. now left. }
  split; [|split; [reflexivity|split; [exact Hmem|split; [reflexivity|split]]]].
  - intros doc node type [<- | []] [<- | []] [fieldType [Hty <-]].
    simpl in Hty. inversion Hty; subst. discriminate.
  - constructor.
  - intros Hall.
    apply (proj2 (Hall (leave (Emitter.tsVisitor Sample.schema Sample.config)
                              Sample.metaType))).
    exists Sample.metaType. repeat split; try assumption. constructor.
Qed.

(** ** The heap *)

Section Heap.

Lemma write_length (heap : Stateful.Heap) (array : nat) (elements : list string) :
  List.length (Stateful.write heap array elements) = List.length heap.
Proof.
  revert array. induction heap as [|first rest IH]; intros [|array]; simpl; auto.
Qed.

Lemma read_write (heap : Stateful.Heap) (array : nat) (elements : list string) :
  array < List.length heap -> Stateful.read (Stateful.write heap array elements) array = elements.
Proof.
  unfold Stateful.read. revert array.
  induction heap as [|first rest IH]; intros [|array] Hlt; simpl in *; try lia.
  - reflexivity.
  - apply IH. lia.
Qed.

Lemma write_write (heap : Stateful.Heap) (array : nat) (elements elements' : list string) :
  Stateful.write (Stateful.write heap array elements) array elements' = Stateful.write heap array elements'.
Proof.
  revert array. induction heap as [|first rest IH]; intros [|array]; simpl; try reflexivity.
  now rewrite IH.
Qed.

Lemma write_read (heap : Stateful.Heap) (array : nat) :
  Stateful.write heap array (Stateful.read heap array) = heap.
Proof.
  unfold Stateful.read. revert array.
  induction heap as [|first rest IH]; intros [|array]; simpl; try reflexivity.
  now rewrite IH.
Qed.

Lemma read_newArray (heap : Stateful.Heap) :
  Stateful.read (heap ++ [[]]) (List.length heap) = [].
Proof. unfold Stateful.read. now rewrite nth_middle. Qed.

Lemma read_older (heap : Stateful.Heap) (array : nat) :
  array < List.length heap -> Stateful.read (heap ++ [[]]) array = Stateful.read heap array.
Proof. intros Hlt. unfold Stateful.read. now apply app_nth1. Qed.

(** The callback changes the array at [usedTypes] as the function on
    arrays does, and nothing else. *)
Lemma Field_on_heap (usedTypes : nat) (heap : Stateful.Heap) (node : FieldNode) :
  Stateful.Field usedTypes heap node
  = Stateful.write heap usedTypes (Field (Stateful.read heap usedTypes) node).
Proof.
  unfold Stateful.Field, Field, Stateful.push.
  destruct (getType_ node) as [fieldType|]; [|now rewrite write_read].
  destruct (isIntrospectionType (getNamedType fieldType)
            && negb (Js.arrayIncludes (Stateful.read heap usedTypes) (getNamedType fieldType)));
    [reflexivity | now rewrite write_read].
Qed.

Lemma fold_Field_on_heap (usedTypes : nat) (nodes : list FieldNode) (heap : Stateful.Heap) :
  usedTypes < List.length heap ->
  fold_left (Stateful.Field usedTypes) nodes heap
  = Stateful.write heap usedTypes (fold_left Field nodes (Stateful.read heap usedTypes)).
Proof.
  revert heap. induction nodes as [|node rest IH]; intros heap Hlt; simpl.
  - now rewrite write_read.
  - rewrite Field_on_heap, IH by (now rewrite write_length).
    now rewrite read_write, write_write.
Qed.

Lemma documents_on_heap (usedTypes : nat) (documents : list DocumentFile) (heap : Stateful.Heap) :
  usedTypes < List.length heap ->
  fold_left (fun heap doc => fold_left (Stateful.Field usedTypes) (content_ doc) heap)
            documents heap
  = Stateful.write heap usedTypes
          (fold_left (fun used doc => fold_left Field (content_ doc) used)
                     documents (Stateful.read heap usedTypes)).
Proof.
  revert heap. induction documents as [|doc rest IH]; intros heap Hlt; simpl.
  - now rewrite write_read.
  - rewrite fold_Field_on_heap, IH by (try rewrite write_length; assumption).
    now rewrite read_write, write_write.
Qed.

Lemma forEach_on_heap (typesToInclude : nat)
      (body : Stateful.Heap -> string -> option Stateful.Heap)
      (pure : list string -> string -> option (list string)) :
  (forall heap type,
      typesToInclude < List.length heap ->
      body heap type = option_map (Stateful.write heap typesToInclude)
                                  (pure (Stateful.read heap typesToInclude) type)) ->
  forall types heap,
    typesToInclude < List.length heap ->
    Js.forEach body types heap
    = option_map (Stateful.write heap typesToInclude)
                 (Js.forEach pure types (Stateful.read heap typesToInclude)).
Proof.
  intros Hbody. induction types as [|type rest IH]; intros heap Hlt; simpl.
  - now rewrite write_read.
  - rewrite Hbody by assumption.
    destruct (pure (Stateful.read heap typesToInclude) type) as [after|]; simpl; [|reflexivity].
    rewrite IH by (now rewrite write_length).
    rewrite read_write by assumption.
    destruct (Js.forEach pure rest after); simpl; [|reflexivity].
    now rewrite write_write.
Qed.

(** [collectTypes] changes the array at [typesToInclude] as the function
    on arrays does, and nothing else. *)
Lemma collectTypes_on_heap (schema : GraphQLSchema) (typesToInclude : nat) :
  forall fuel heap type,
    typesToInclude < List.length heap ->
    Stateful.collectTypes fuel schema typesToInclude heap type
    = option_map (Stateful.write heap typesToInclude)
                 (collectTypes fuel schema (Stateful.read heap typesToInclude) type).
Proof.
  induction fuel as [|fuel IH]; intros heap type Hlt; [reflexivity|].
  rewrite collectTypes_unfold. simpl Stateful.collectTypes.
  destruct (Js.arrayIncludes (Stateful.read heap typesToInclude) type); simpl.
  - now rewrite write_read.
  - destruct (isObjectType schema type); [|reflexivity].
    rewrite (forEach_map (fun entry : string * GraphQLType => getNamedType (snd entry))
                         (fun heap type =>
                            Stateful.collectTypes fuel schema typesToInclude heap type)).
    unfold Stateful.push.
    rewrite (forEach_on_heap typesToInclude _ (collectTypes fuel schema))
      by (try rewrite write_length; auto).
    rewrite read_write by assumption.
    destruct (Js.forEach _ _ (Stateful.read heap typesToInclude ++ [type])); simpl; [|reflexivity].
    now rewrite write_write.
Qed.

End Heap.

(** ** Calls of [plugin] in a program state *)

Section PluginInState.

Variable newTsVisitor : Stateful.TsVisitorClassIn.
Variable schema : GraphQLSchema.
Variable documents : list DocumentFile.
Variable config : TypeScriptPluginConfig.

Lemma includeIntrospectionDefinitions_on_heap (fuel : nat) (heap : Stateful.Heap) :
  Stateful.includeIntrospectionDefinitions newTsVisitor fuel schema documents config heap
  = option_map
      (fun typesToInclude =>
         (visitIntrospection
            (printIntrospectionSchema schema)
            (TsIntrospectionVisitor (newTsVisitor (heapAfter documents heap typesToInclude))
                                    schema config typesToInclude),
          heapAfter documents heap typesToInclude))
      (collectAllTypes fuel schema (collectUsedTypes documents)).
Proof.
  unfold Stateful.includeIntrospectionDefinitions, Stateful.newArray, heapAfter,
    collectAllTypes.
  assert (Hused : List.length heap < List.length (heap ++ [[]]))
    by (rewrite length_app; simpl; lia).
  rewrite documents_on_heap by assumption.
  rewrite read_newArray. fold (collectUsedTypes documents).
  set (used := collectUsedTypes documents).
  set (second := Stateful.write (heap ++ [[]]) (List.length heap) used).
  assert (Hlength : List.length second = S (List.length heap)).
  { unfold second. rewrite write_length, length_app. simpl. lia. }
  assert (Htypes : List.length second < List.length (second ++ [[]]))
    by (rewrite length_app; simpl; lia).
  rewrite read_older by lia.
  unfold second at 2. rewrite read_write by assumption.
  rewrite (forEach_on_heap (List.length second) _ (collectTypes fuel schema))
    by (auto using collectTypes_on_heap).
  rewrite read_newArray, Hlength.
  destruct (Js.forEach (collectTypes fuel schema) used []) as [typesToInclude|]; simpl;
    [|reflexivity].
  rewrite read_write by lia. reflexivity.
Qed.

Hypothesis stateless :
  forall heap heap', newTsVisitor heap schema config = newTsVisitor heap' schema config.

Lemma plugin_on_heap (fuel : nat) (heap : Stateful.Heap) (output : PluginOutput) :
  plugin (newTsVisitor []) fuel schema documents config = Return output ->
  exists after,
    Stateful.plugin newTsVisitor fuel schema documents config heap = Return (output, after).
Proof.
  unfold plugin, Stateful.plugin, includeIntrospectionDefinitions.
  rewrite includeIntrospectionDefinitions_on_heap.
  destruct (collectAllTypes fuel schema (collectUsedTypes documents)) as [types|]; simpl;
    [|discriminate].
  unfold TsIntrospectionVisitor.
  rewrite (stateless (heapAfter documents heap types) []), (stateless heap []).
  destruct (generateOnlyEnums config); intros H; inversion H; now eexists.
Qed.

End PluginInState.

Lemma plugin_fuel_irrelevant
      (newTsVisitor : TsVisitorClass) (schema : GraphQLSchema)
      (documents : list DocumentFile) (config : TypeScriptPluginConfig)
      (fuel fuel' : nat) (output output' : PluginOutput) :
  plugin newTsVisitor fuel schema documents config = Return output ->
  plugin newTsVisitor fuel' schema documents config = Return output' ->
  output = output'.
Proof.
  unfold plugin. intros H H'.
  destruct (includeIntrospectionDefinitions newTsVisitor fuel schema documents config)
    as [definitions|] eqn:Hintro; [|discriminate].
  destruct (includeIntrospectionDefinitions newTsVisitor fuel' schema documents config)
    as [definitions'|] eqn:Hintro'; [|discriminate].
  rewrite (includeIntrospectionDefinitions_fuel_irrelevant
             _ _ _ _ _ _ _ _ Hintro Hintro') in H.
  congruence.
Qed.

(** C8 (determinism).  A call of [plugin] reads and writes arrays in the
    state of the program, and it creates the ones it uses: whatever is in
    the heap when it starts, for instance what an earlier call left
    there, it returns, and two calls on the same schema, documents and
    configuration return the same [prepend] and the same [content].
    This is for a visitor class that builds the same instance whatever
    the state. *)
Theorem plugin_same_result_in_every_state
        (newTsVisitor : Stateful.TsVisitorClassIn) (schema : GraphQLSchema)
        (documents : list DocumentFile) (config : TypeScriptPluginConfig)
        (heap heap' : Stateful.Heap) (extra extra' : nat) :
  (forall state state',
      newTsVisitor state schema config = newTsVisitor state' schema config) ->
  exists output after after',
    Stateful.plugin newTsVisitor (enoughFuel schema + extra) schema documents config heap
    = Return (output, after)
    /\ Stateful.plugin newTsVisitor (enoughFuel schema + extra') schema documents config heap'
       = Return (output, after').
Proof.
  intros Hstateless.
  destruct (plugin_returns (newTsVisitor []) schema documents config extra) as [output H].
  destruct (plugin_returns (newTsVisitor []) schema documents config extra') as [output' H'].
  rewrite <- (plugin_fuel_irrelevant _ _ _ _ _ _ _ _ H H') in H'.
  destruct (plugin_on_heap newTsVisitor schema documents config Hstateless _ heap _ H)
    as [after Hrun].
  destruct (plugin_on_heap newTsVisitor schema documents config Hstateless _ heap' _ H')
    as [after' Hrun'].
  now exists output, after, after'.
Qed.

Lemma plugin_same_result_in_every_state_witness :
  (forall state state' : Stateful.Heap,
      Emitter.tsVisitor Sample.schema Sample.config
      = Emitter.tsVisitor Sample.schema Sample.config)
  /\ exists output after after',
      Stateful.plugin (fun _ => Emitter.tsVisitor) (enoughFuel Sample.schema + 0)
                      Sample.schema [Sample.typeNameQuery] Sample.config []
      = Return (output, after)
      /\ Stateful.plugin (fun _ => Emitter.tsVisitor) (enoughFuel Sample.schema + 3)
                         Sample.schema [Sample.typeNameQuery] Sample.config
                         [["__Schema"; "__Type"]; ["__Schema"; "__Type"; "String"]]
         = Return (output, after').
Proof.
  split; [reflexivity|].
  exact (plugin_same_result_in_every_state (fun _ => Emitter.tsVisitor) Sample.schema
           [Sample.typeNameQuery] Sample.config
           [] [["__Schema"; "__Type"]; ["__Schema"; "__Type"; "String"]] 0 3
           (fun _ _ => eq_refl)).
Defined.

(** A call leaves its two arrays in the heap, after what was there; the
    next call does not read them. *)
Example includeIntrospectionDefinitions_leaves_its_arrays :
  option_map snd
    (Stateful.includeIntrospectionDefinitions
       (fun _ => Emitter.tsVisitor) (enoughFuel Sample.schema) Sample.schema
       [Sample.typeNameQuery] Sample.config [["__Schema"]])
  = Some [ ["__Schema"];
           ["__Type"];
           ["__Type"; "__TypeKind"; "String"; "__Field"; "__InputValue"; "Boolean";
            "__EnumValue"] ].
Proof. reflexivity. Qed.
